(** * Kaggle GCP credential broker: [patches/kaggle_gcp.py]

    A shallow embedding of the module's integration registry, delegated
    credential, proxy connection, client routing and monkey-patch guard,
    together with the properties established about them.

    Python effects are modelled by a small monad [M]: the process
    environment is read-only input, diagnostics ([Log.info], [Log.error],
    [print]) and object constructions are appended to a trace, exceptions
    are a sum, and the object a method mutates ([self], or the patched
    modules) is the threaded state. An exception does not roll the state
    back, as in Python. *)

From stdpp Require Import gmap strings list.
From Stdlib Require Import ZArith Ascii String.

Local Open Scope string_scope.

(** ** Data *)

(** Modelled from the spec: [kaggle_secrets.GcpTarget] is imported by the
    module but defined elsewhere. It is the enumeration of the three
    targets; the member names are the ones the module itself refers to
    ([GcpTarget.BIGQUERY], [GcpTarget.GCS], [GcpTarget.AUTOML]). *)
Inductive GcpTarget := BIGQUERY | GCS | AUTOML.

#[global] Instance GcpTarget_eq_dec : EqDecision GcpTarget.
Proof. solve_decision. Defined.

#[global] Instance GcpTarget_countable : Countable GcpTarget.
Proof.
  refine (inj_countable'
            (fun t => match t with BIGQUERY => 0 | GCS => 1 | AUTOML => 2 end)
            (fun n => match n with 0 => BIGQUERY | 1 => GCS | _ => AUTOML end) _).
  by intros [].
Defined.

Definition member_name (t : GcpTarget) : string :=
  match t with
  | BIGQUERY => "BIGQUERY"
  | GCS => "GCS"
  | AUTOML => "AUTOML"
  end.

(** [KaggleKernelCredentials]: the target it is bound to, and the two
    attributes [token] and [expiry] inherited from
    [google.auth.credentials.Credentials], whose constructor sets both to
    [None]. *)
Record KaggleKernelCredentials := mkKernelCredentials {
  target : GcpTarget;
  token : option string;
  expiry : option Z
}.

(** Credential objects a client can be given. [AnonymousCredentials b] is
    [google.auth.credentials.AnonymousCredentials]; [b] tells whether its
    [refresh] attribute was replaced by [lambda *args: None].
    [CallerCredentials n] is an object built by the caller, opaque here. *)
Inductive Credentials :=
| KernelCredentials (c : KaggleKernelCredentials)
| AnonymousCredentials (refresh_overridden : bool)
| CallerCredentials (id : nat).

(** The Python values that travel through [*args] and [**kwargs]. *)
Inductive pyval :=
| PyNone
| PyStr (s : string)
| PyCredentials (c : Credentials)
| PyObject (id : nat).

#[global] Instance KaggleKernelCredentials_eq_dec : EqDecision KaggleKernelCredentials.
Proof. solve_decision. Defined.

#[global] Instance Credentials_eq_dec : EqDecision Credentials.
Proof. solve_decision. Defined.

#[global] Instance pyval_eq_dec : EqDecision pyval.
Proof. solve_decision. Defined.

(** Python truthiness: [None] and the empty string are falsy. *)
Definition truthy (v : pyval) : bool :=
  match v with
  | PyNone => false
  | PyStr s => negb (String.eqb s "")
  | _ => true
  end.

(** [a or b]. *)
Definition py_or (a b : pyval) : pyval := if truthy a then a else b.

(** [v is None]. *)
Definition is_None (v : pyval) : bool :=
  match v with PyNone => true | _ => false end.

Definition of_option (o : option string) : pyval :=
  match o with Some s => PyStr s | None => PyNone end.

(** [str(v)] as an f-string interpolates it; opaque objects print as a
    placeholder. *)
Definition py_str (v : pyval) : string :=
  match v with
  | PyNone => "None"
  | PyStr s => s
  | PyCredentials _ => "<credentials>"
  | PyObject _ => "<object>"
  end.

(** [kwargs.get(key)]. *)
Definition kwargs_get (kwargs : gmap string pyval) (key : string) : pyval :=
  default PyNone (kwargs !! key).

(** ** [repr] of a string *)

(** [repr(s)] for text in the ASCII range, as [str(KeyError(s))] prints it:
    double quotes when [s] holds a single quote and no double quote, single
    quotes otherwise; the chosen quote and the backslash escaped with a
    backslash; tab, newline and carriage return as [\t], [\n], [\r]; the
    other control characters and DEL as [\x] and two hexadecimal digits. *)
Definition double_quote : ascii := ascii_of_nat 34.

Definition hex_digit (n : nat) : ascii :=
  nth n ["0"; "1"; "2"; "3"; "4"; "5"; "6"; "7";
         "8"; "9"; "a"; "b"; "c"; "d"; "e"; "f"]%char "0"%char.

Fixpoint has_char (c : ascii) (s : string) : bool :=
  match s with
  | EmptyString => false
  | String d rest => Ascii.eqb c d || has_char c rest
  end.

Definition repr_char (quote c : ascii) : string :=
  let n := nat_of_ascii c in
  if Ascii.eqb c quote || Ascii.eqb c "\"%char then String "\" (String c EmptyString)
  else if (n =? 9)%nat then "\t"
  else if (n =? 10)%nat then "\n"
  else if (n =? 13)%nat then "\r"
  else if (n <? 32)%nat || (n =? 127)%nat then
    String "\" (String "x" (String (hex_digit (n / 16)) (String (hex_digit (n mod 16))
                                                                 EmptyString)))
  else String c EmptyString.

Fixpoint repr_body (quote : ascii) (s : string) : string :=
  match s with
  | EmptyString => EmptyString
  | String c rest => repr_char quote c +:+ repr_body quote rest
  end.

Definition py_repr (s : string) : string :=
  let quote := if has_char "'" s && negb (has_char double_quote s)
               then double_quote else "'"%char in
  String quote (repr_body quote s +:+ String quote EmptyString).

Inductive exception :=
| KeyError (key : string)
| ConnectionError (msg : string)
| OtherException (msg : string)
| RefreshError (msg : string) (cause : exception)
| Forbidden (msg : string)
| TypeError (msg : string).

(** [str(e)]; for a [KeyError] it is the repr of the key. *)
Definition exception_str (e : exception) : string :=
  match e with
  | KeyError k => py_repr k
  | ConnectionError m | OtherException m | RefreshError m _
  | Forbidden m | TypeError m => m
  end.

Inductive class_name :=
| cls_KaggleKernelCredentials
| cls_PublicBigqueryClient
| cls_Client.

#[global] Instance class_name_eq_dec : EqDecision class_name.
Proof. solve_decision. Defined.

(** What a run leaves behind besides its result: log lines, printed lines,
    and one [EvNew] per object the module constructs. *)
Inductive event :=
| EvLogInfo (msg : string)
| EvLogError (msg : string)
| EvPrint (msg : string)
| EvNew (cls : class_name).

Definition is_print (ev : event) : bool :=
  match ev with EvPrint _ => true | _ => false end.

(** ** The effect monad *)

Record outcome (S A : Type) := Outcome {
  trace : list event;
  state : S;
  result : exception + A
}.
Arguments Outcome {S A} _ _ _.
Arguments trace {S A} _.
Arguments state {S A} _.
Arguments result {S A} _.

Definition M (S A : Type) : Type := gmap string string -> S -> outcome S A.

Definition ret {S A} (a : A) : M S A :=
  fun _ s => Outcome [] s (inr a).

Definition raise {S A} (e : exception) : M S A :=
  fun _ s => Outcome [] s (inl e).

Definition bind {S A B} (m : M S A) (f : A -> M S B) : M S B :=
  fun env s =>
    let o := m env s in
    match result o with
    | inl e => Outcome (trace o) (state o) (inl e)
    | inr a =>
        let o' := f a env (state o) in
        Outcome (trace o ++ trace o') (state o') (result o')
    end.

(** [try: m except Exception as e: handler e]; a handler for one class
    re-raises the others. *)
Definition try_except {S A} (m : M S A) (handler : exception -> M S A) : M S A :=
  fun env s =>
    let o := m env s in
    match result o with
    | inl e =>
        let o' := handler e env (state o) in
        Outcome (trace o ++ trace o') (state o') (result o')
    | inr _ => o
    end.

Definition emit {S} (ev : event) : M S unit :=
  fun _ s => Outcome [ev] s (inr tt).

Definition os_getenv {S} (key : string) : M S (option string) :=
  fun env s => Outcome [] s (inr (env !! key)).

Definition get_self {S} : M S S :=
  fun _ s => Outcome [] s (inr s).

Definition set_self {S} (s : S) : M S unit :=
  fun _ _ => Outcome [] s (inr tt).

(** Lifts the outcome of a collaborator call. *)
Definition lift_result {S A} (r : exception + A) : M S A :=
  fun _ s => Outcome [] s r.

Notation "x <- m ;; k" := (bind m (fun x => k))
  (at level 100, m at next level, right associativity).
Notation "m ;;; k" := (bind m (fun _ => k))
  (at level 100, right associativity).

Definition Log_info {S} (msg : string) : M S unit := emit (EvLogInfo msg).
Definition Log_error {S} (msg : string) : M S unit := emit (EvLogError msg).
Definition print {S} (msg : string) : M S unit := emit (EvPrint msg).

(** ** Strings: [str.upper] and [str.split] on ASCII text

    Strings are sequences of bytes. [upper], [py_repr] and
    [eq_ignore_case] are Python's [str.upper], [repr] and case-insensitive
    comparison on text in the ASCII range ([is_ascii]); Python also changes and
    escapes letters outside that range, which these leave alone, so what is
    stated about the text of an entry is stated for ASCII text. *)




Definition upper_ascii (c : ascii) : ascii :=
  let n := nat_of_ascii c in
  if (97 <=? n)%nat && (n <=? 122)%nat then ascii_of_nat (n - 32) else c.

Fixpoint upper (s : string) : string :=
  match s with
  | EmptyString => EmptyString
  | String c s' => String (upper_ascii c) (upper s')
  end.

(** [s.split(sep)] for a one-character separator: always at least one
    piece, empty pieces kept. *)
Fixpoint split (sep : ascii) (s : string) : list string :=
  match s with
  | EmptyString => [EmptyString]
  | String c s' =>
      if Ascii.eqb c sep then EmptyString :: split sep s'
      else match split sep s' with
           | piece :: pieces => String c piece :: pieces
           | [] => [String c EmptyString]
           end
  end.



(** Equality of two strings up to the case of ASCII letters, written
    without [upper]: the reading of "case-insensitively names". *)
Definition is_ascii_letter (c : ascii) : bool :=
  let n := nat_of_ascii c in
  ((65 <=? n)%nat && (n <=? 90)%nat) || ((97 <=? n)%nat && (n <=? 122)%nat).

Definition ascii_eq_ignore_case (c1 c2 : ascii) : bool :=
  Ascii.eqb c1 c2
  || (is_ascii_letter c1 && is_ascii_letter c2
      && (nat_of_ascii c1 mod 32 =? nat_of_ascii c2 mod 32)%nat).

Fixpoint eq_ignore_case (s1 s2 : string) : bool :=
  match s1, s2 with
  | EmptyString, EmptyString => true
  | String c1 r1, String c2 r2 => ascii_eq_ignore_case c1 c2 && eq_ignore_case r1 r2
  | _, _ => false
  end.

(** ** [KernelIntegrations] and [get_integrations] *)

Record KernelIntegrations := mkKernelIntegrations {
  integrations : gmap GcpTarget bool
}.

Definition KernelIntegrations_init : KernelIntegrations :=
  {| integrations := ∅ |}.

Definition add_integration (self : KernelIntegrations) (t : GcpTarget) : KernelIntegrations :=
  {| integrations := <[t := true]> (integrations self) |}.

Definition has_integration (self : KernelIntegrations) (t : GcpTarget) : bool :=
  match integrations self !! t with Some _ => true | None => false end.

Definition has_bigquery (self : KernelIntegrations) : bool :=
  match integrations self !! BIGQUERY with Some _ => true | None => false end.

Definition has_gcs (self : KernelIntegrations) : bool :=
  match integrations self !! GCS with Some _ => true | None => false end.

Definition has_automl (self : KernelIntegrations) : bool :=
  match integrations self !! AUTOML with Some _ => true | None => false end.

(** [GcpTarget[name]]: lookup of a member by name, [KeyError] otherwise. *)
Definition GcpTarget_lookup (name : string) : option GcpTarget :=
  if String.eqb name "BIGQUERY" then Some BIGQUERY
  else if String.eqb name "GCS" then Some GCS
  else if String.eqb name "AUTOML" then Some AUTOML
  else None.

Definition GcpTarget_getitem {S} (name : string) : M S GcpTarget :=
  match GcpTarget_lookup name with
  | Some t => ret t
  | None => raise (KeyError name)
  end.

(** The body of the [for integration in ...split(':')] loop. *)
Definition get_integrations_step {S} (kernel_integrations : KernelIntegrations)
    (integration : string) : M S KernelIntegrations :=
  try_except
    (t <- GcpTarget_getitem (upper integration) ;;
     ret (add_integration kernel_integrations t))
    (fun e =>
       match e with
       | KeyError _ =>
           Log_error ("Unknown integration target: " +:+ exception_str e) ;;;
           ret kernel_integrations
       | _ => raise e
       end).

Fixpoint get_integrations_loop {S} (pieces : list string)
    (kernel_integrations : KernelIntegrations) : M S KernelIntegrations :=
  match pieces with
  | [] => ret kernel_integrations
  | integration :: rest =>
      ki <- get_integrations_step kernel_integrations integration ;;
      get_integrations_loop rest ki
  end.

Definition get_integrations {S} : M S KernelIntegrations :=
  kernel_integrations_var <- os_getenv "KAGGLE_KERNEL_INTEGRATIONS" ;;
  let kernel_integrations := KernelIntegrations_init in
  match kernel_integrations_var with
  | None => ret kernel_integrations
  | Some v => get_integrations_loop (split ":" v) kernel_integrations
  end.
Arguments get_integrations : simpl never.

(** ** [KaggleKernelCredentials] *)

(** [KaggleKernelCredentials(target)]: the base constructor leaves [token]
    and [expiry] at [None]. *)
Definition KaggleKernelCredentials_new {S} (t : GcpTarget) : M S KaggleKernelCredentials :=
  emit (EvNew cls_KaggleKernelCredentials) ;;;
  ret {| target := t; token := None; expiry := None |}.

(** Modelled from the spec: [kaggle_secrets.UserSecretsClient], the token
    vault, is imported by the module but defined elsewhere. Its contract is
    [fetch_token(target) -> (token: string, expiry: timestamp)], failing with
    a connection error or with another error. One value of this record is
    what the vault does during one call of [refresh]: whether
    [UserSecretsClient()] can be built, and what each of the three fetch
    methods returns or raises. *)
Record UserSecretsClient := mkUserSecretsClient {
  UserSecretsClient_new : exception + unit;
  get_bigquery_access_token : exception + (string * Z);
  _get_gcs_access_token : exception + (string * Z);
  _get_automl_access_token : exception + (string * Z)
}.

Section Refresh.

(** Modelled from the spec: the display name a target carries
    ([GcpTarget.service]), used in diagnostics. *)
Variable service : GcpTarget -> string.

(** [self.token, self.expiry = pair]: both attributes are written
    together, once the right-hand side has been evaluated. *)
Definition assign_token_expiry (pair : string * Z) : M KaggleKernelCredentials unit :=
  self <- get_self ;;
  set_self {| target := target self; token := Some (fst pair); expiry := Some (snd pair) |}.

Definition refresh (vault : UserSecretsClient) (request : pyval)
  : M KaggleKernelCredentials unit :=
  try_except
    (client <- lift_result (UserSecretsClient_new vault) ;;
     self <- get_self ;;
     match target self with
     | BIGQUERY =>
         pair <- lift_result (get_bigquery_access_token vault) ;;
         assign_token_expiry pair
     | GCS =>
         pair <- lift_result (_get_gcs_access_token vault) ;;
         assign_token_expiry pair
     | AUTOML =>
         pair <- lift_result (_get_automl_access_token vault) ;;
         assign_token_expiry pair
     end)
    (fun e =>
       match e with
       | ConnectionError _ =>
           Log_error ("Connection error trying to refresh access token: "
                      +:+ exception_str e) ;;;
           self <- get_self ;;
           print ("There was a connection error trying to fetch the access token. "
                  +:+ "Please ensure internet is on in order to use the "
                  +:+ service (target self) +:+ " Integration.") ;;;
           raise (RefreshError "Unable to refresh access token due to connection error." e)
       | _ =>
           Log_error ("Error trying to refresh access token: " +:+ exception_str e) ;;;
           self <- get_self ;;
           ki <- get_integrations ;;
           (if negb (has_integration ki (target self)) then
              Log_error ("No " +:+ service (target self) +:+ " integration found.") ;;;
              print ("Please ensure you have selected a " +:+ service (target self)
                     +:+ " account in the Kernels Settings sidebar.")
            else ret tt) ;;;
           raise (RefreshError "Unable to refresh access token." e)
       end).

(** The HTTP layer calls [refresh] again and again on the same object,
    going on after a failed attempt; [vaults] gives the vault's behaviour
    at each call. *)
Definition refresh_all (env : gmap string string) (vaults : list UserSecretsClient)
    (self : KaggleKernelCredentials) : KaggleKernelCredentials :=
  fold_left (fun s vault => state (refresh vault PyNone env s)) vaults self.

End Refresh.

(** What the vault's fetch for target [t] does, constructor included. *)
Definition vault_call (vault : UserSecretsClient) (t : GcpTarget) : exception + (string * Z) :=
  match UserSecretsClient_new vault with
  | inl e => inl e
  | inr _ =>
      match t with
      | BIGQUERY => get_bigquery_access_token vault
      | GCS => _get_gcs_access_token vault
      | AUTOML => _get_automl_access_token vault
      end
  end.

Definition is_ConnectionError (e : exception) : bool :=
  match e with ConnectionError _ => true | _ => false end.

Definition connectivity_hint (service : GcpTarget -> string) (t : GcpTarget) : string :=
  "There was a connection error trying to fetch the access token. "
  +:+ "Please ensure internet is on in order to use the "
  +:+ service t +:+ " Integration.".

Definition select_account_hint (service : GcpTarget -> string) (t : GcpTarget) : string :=
  "Please ensure you have selected a " +:+ service t
  +:+ " account in the Kernels Settings sidebar.".

(** [refresh] of the other credential objects: the replaced [refresh] of the
    anonymous credentials returns [None] and touches nothing; the original
    one of [google.auth] refuses. *)
Definition AnonymousCredentials_refresh {S} (refresh_overridden : bool) : M S unit :=
  if refresh_overridden then ret tt
  else raise (OtherException "Anonymous credentials cannot be refreshed.").

(** ** [_DataProxyConnection] *)

Inductive Connection :=
| VendorConnection
| DataProxyConnection (API_BASE_URL : option string) (extra_headers : gmap string pyval).

Definition DataProxyConnection_init {S} : M S Connection :=
  url <- os_getenv "KAGGLE_DATA_PROXY_URL" ;;
  tok <- os_getenv "KAGGLE_DATA_PROXY_TOKEN" ;;
  ret (DataProxyConnection url (<["X-KAGGLE-PROXY-DATA" := of_option tok]> ∅)).

Definition permission_denied_msg : string :=
  "Permission denied using Kaggle's public BigQuery integration. "
  +:+ "Did you mean to select a BigQuery account in the Kernels Settings sidebar?".

(** [super_api_request] is the vendor's [Connection.api_request] applied to
    the same arguments. *)
Definition api_request {S A} (super_api_request : M S A) : M S A :=
  try_except super_api_request
    (fun e =>
       match e with
       | Forbidden _ =>
           let msg := permission_denied_msg in
           print msg ;;;
           Log_info msg ;;;
           raise e
       | _ => raise e
       end).

(** ** Clients *)

(** A constructed client: its class, the arguments the vendor constructor
    received, and its connection. *)
Record Client := mkClient {
  client_class : class_name;
  client_args : list pyval;
  client_kwargs : gmap string pyval;
  _connection : Connection
}.

(** The vendor constructor [bigquery.client.Client.__init__] (and
    [storage.Client.__init__]), taken not to fail: it keeps what it was
    called with. *)
Definition Client_init {S} (cls : class_name) (args : list pyval)
    (kwargs : gmap string pyval) : M S Client :=
  ret {| client_class := cls; client_args := args; client_kwargs := kwargs;
         _connection := VendorConnection |}.

(** A call [f(k1=v1, ..., **kwargs)]: a key given both ways is a
    [TypeError] raised by the call itself, before [f] runs. *)
Fixpoint merge_keywords (explicit : list (string * pyval)) (kwargs : gmap string pyval)
  : exception + gmap string pyval :=
  match explicit with
  | [] => inr kwargs
  | (k, v) :: rest =>
      match kwargs !! k with
      | Some _ => inl (TypeError "got multiple values for keyword argument")
      | None =>
          match merge_keywords rest kwargs with
          | inl e => inl e
          | inr m => inr (<[k := v]> m)
          end
      end
  end.

(** The call of [PublicBigqueryClient] with [args] and [kwargs]: the object
    is allocated, then [__init__] runs. *)
Definition PublicBigqueryClient {S} (args : list pyval) (kwargs : gmap string pyval)
  : M S Client :=
  emit (EvNew cls_PublicBigqueryClient) ;;;
  data_proxy_project <- os_getenv "KAGGLE_DATA_PROXY_PROJECT" ;;
  let anon_credentials := AnonymousCredentials true in
  kw <- lift_result
          (merge_keywords [("project", of_option data_proxy_project);
                           ("credentials", PyCredentials anon_credentials)] kwargs) ;;
  self <- Client_init cls_PublicBigqueryClient args kw ;;
  conn <- DataProxyConnection_init ;;
  ret {| client_class := client_class self; client_args := client_args self;
         client_kwargs := client_kwargs self; _connection := conn |}.

Definition public_msg : string := "Using Kaggle's public dataset BigQuery integration.".

(** [arg_project or os.environ.get(environment_vars.PROJECT)]. *)
Definition explicit_project_id_of (kwargs : gmap string pyval) (env_project : option string)
  : pyval :=
  let arg_project := kwargs_get kwargs "project" in
  py_or arg_project (of_option env_project).

Definition monkeypatch_bq {S}
    (bq_client : list pyval -> gmap string pyval -> M S Client)
    (args : list pyval) (kwargs : gmap string pyval) : M S Client :=
  let specified_credentials := kwargs_get kwargs "credentials" in
  ki <- get_integrations ;;
  let has_bigquery := has_bigquery ki in
  env_project <- os_getenv "GOOGLE_CLOUD_PROJECT" ;;
  let explicit_project_id := explicit_project_id_of kwargs env_project in
  kwargs <- (if truthy explicit_project_id then
               Log_info ("Explicit project set to " +:+ py_str explicit_project_id) ;;;
               ret (<["project" := explicit_project_id]> kwargs)
             else ret kwargs) ;;
  if is_None explicit_project_id && is_None specified_credentials && negb has_bigquery then
    let msg := public_msg in
    Log_info msg ;;;
    print msg ;;;
    PublicBigqueryClient args kwargs
  else
    kwargs <- (if is_None specified_credentials then
                 Log_info "No credentials specified, using KaggleKernelCredentials." ;;;
                 c <- KaggleKernelCredentials_new BIGQUERY ;;
                 let kwargs := <["credentials" := PyCredentials (KernelCredentials c)]> kwargs in
                 (if negb has_bigquery then
                    Log_info "No bigquery integration found, creating client anyways." ;;;
                    print ("Please ensure you have selected a BigQuery "
                           +:+ "account in the Kernels Settings sidebar.")
                  else ret tt) ;;;
                 ret kwargs
               else ret kwargs) ;;
    (if is_None explicit_project_id then
       Log_info "No project specified while using the unmodified client." ;;;
       print ("Please ensure you specify a project id when creating the client"
              +:+ " in order to use your BigQuery account.")
     else ret tt) ;;;
    bq_client args kwargs.

Definition monkeypatch_gcs {S}
    (gcs_client_init : list pyval -> gmap string pyval -> M S Client)
    (args : list pyval) (kwargs : gmap string pyval) : M S Client :=
  let specified_credentials := kwargs_get kwargs "credentials" in
  kwargs <- (if is_None specified_credentials then
               Log_info "No credentials specified, using KaggleKernelCredentials." ;;;
               c <- KaggleKernelCredentials_new GCS ;;
               ret (<["credentials" := PyCredentials (KernelCredentials c)]> kwargs)
             else ret kwargs) ;;
  gcs_client_init args kwargs.

(** ** The patch guard and [init] *)

(** [needle in hay] on strings. *)
Fixpoint contains (needle hay : string) : bool :=
  String.prefix needle hay
  || match hay with
     | EmptyString => false
     | String _ rest => contains needle rest
     end.

(** Where the code lives: the source files of the two vendor callables
    that get replaced, and the directory prefix of this module's own file,
    whose name is [kaggle_gcp.py]. *)
Record installation := mkInstallation {
  bigquery_client_file : string;
  storage_client_file : string;
  kaggle_gcp_dir : string
}.

Definition kaggle_gcp_file (inst : installation) : string :=
  kaggle_gcp_dir inst +:+ "kaggle_gcp.py".

(** What the name [bigquery.Client] can be bound to: the vendor class, or
    the lambda of [init_bigquery] closing over the previous binding
    [bq_client]. *)
Inductive bigquery_Client_t :=
| VendorBigqueryClient
| PatchedBigqueryClient (bq_client : bigquery_Client_t).

(** Likewise for [storage.Client.__init__] and [monkeypatch_gcs] closing
    over [gcs_client_init]. *)
Inductive storage_Client_init_t :=
| VendorStorageInit
| PatchedStorageInit (gcs_client_init : storage_Client_init_t).

(** [inspect.getsourcefile]: the file a callable was defined in. *)
Class SourceFile (A : Type) := getsourcefile : installation -> A -> string.

#[global] Instance bigquery_Client_sourcefile : SourceFile bigquery_Client_t :=
  fun inst c =>
    match c with
    | VendorBigqueryClient => bigquery_client_file inst
    | PatchedBigqueryClient _ => kaggle_gcp_file inst
    end.

#[global] Instance storage_Client_init_sourcefile : SourceFile storage_Client_init_t :=
  fun inst c =>
    match c with
    | VendorStorageInit => storage_client_file inst
    | PatchedStorageInit _ => kaggle_gcp_file inst
    end.

Definition has_been_monkeypatched {A} `{SourceFile A} (inst : installation) (method : A)
  : bool :=
  contains "kaggle_gcp" (getsourcefile inst method).

(** Calling what [bigquery.Client] is bound to. *)
Fixpoint call_bigquery_Client {S} (c : bigquery_Client_t) (args : list pyval)
    (kwargs : gmap string pyval) : M S Client :=
  match c with
  | VendorBigqueryClient => Client_init cls_Client args kwargs
  | PatchedBigqueryClient bq_client =>
      monkeypatch_bq (call_bigquery_Client bq_client) args kwargs
  end.

Fixpoint call_storage_Client_init {S} (c : storage_Client_init_t) (args : list pyval)
    (kwargs : gmap string pyval) : M S Client :=
  match c with
  | VendorStorageInit => Client_init cls_Client args kwargs
  | PatchedStorageInit gcs_client_init =>
      monkeypatch_gcs (call_storage_Client_init gcs_client_init) args kwargs
  end.

(** Number of broker wrappers around the vendor callable. *)
Fixpoint bigquery_layers (c : bigquery_Client_t) : nat :=
  match c with
  | VendorBigqueryClient => 0
  | PatchedBigqueryClient c' => S (bigquery_layers c')
  end.

Fixpoint storage_layers (c : storage_Client_init_t) : nat :=
  match c with
  | VendorStorageInit => 0
  | PatchedStorageInit c' => S (storage_layers c')
  end.

(** The module attributes that [init] rebinds. *)
Record modules := mkModules {
  bigquery_Client : bigquery_Client_t;
  magics_context_credentials : option Credentials;
  storage_Client_init : storage_Client_init_t
}.

Definition pristine : modules :=
  {| bigquery_Client := VendorBigqueryClient;
     magics_context_credentials := None;
     storage_Client_init := VendorStorageInit |}.

(** [key in os.environ]. *)
Definition in_os_environ {S} (key : string) : M S bool :=
  v <- os_getenv key ;;
  ret (match v with Some _ => true | None => false end).

Definition init_bigquery (inst : installation) : M modules unit :=
  is_proxy_token_set <- in_os_environ "KAGGLE_DATA_PROXY_TOKEN" ;;
  is_user_secrets_token_set <- in_os_environ "KAGGLE_USER_SECRETS_TOKEN" ;;
  if negb (is_proxy_token_set || is_user_secrets_token_set) then ret tt
  else
    ki <- get_integrations ;;
    (if has_bigquery ki then
       c <- KaggleKernelCredentials_new BIGQUERY ;;
       m <- get_self ;;
       set_self {| bigquery_Client := bigquery_Client m;
                   magics_context_credentials := Some (KernelCredentials c);
                   storage_Client_init := storage_Client_init m |}
     else ret tt) ;;;
    m <- get_self ;;
    let bq_client := bigquery_Client m in
    if negb (has_been_monkeypatched inst (bigquery_Client m)) then
      set_self {| bigquery_Client := PatchedBigqueryClient bq_client;
                  magics_context_credentials := magics_context_credentials m;
                  storage_Client_init := storage_Client_init m |}
    else ret tt.

Definition init_gcs (inst : installation) : M modules unit :=
  is_user_secrets_token_set <- in_os_environ "KAGGLE_USER_SECRETS_TOKEN" ;;
  if negb is_user_secrets_token_set then ret tt
  else
    ki <- get_integrations ;;
    if negb (has_gcs ki) then ret tt
    else
      m <- get_self ;;
      let gcs_client_init := storage_Client_init m in
      if negb (has_been_monkeypatched inst (storage_Client_init m)) then
        set_self {| bigquery_Client := bigquery_Client m;
                    magics_context_credentials := magics_context_credentials m;
                    storage_Client_init := PatchedStorageInit gcs_client_init |}
      else ret tt.

Definition init (inst : installation) : M modules unit :=
  init_bigquery inst ;;;
  init_gcs inst.

(** The registry [get_integrations] returns in a given environment. *)
Definition registry_of (env : gmap string string) : KernelIntegrations :=
  match result (get_integrations env tt) with
  | inr ki => ki
  | inl _ => KernelIntegrations_init
  end.

(** ** The effect of [init] on the patched modules, as plain functions *)

Definition tokens_set (env : gmap string string) : bool :=
  match env !! "KAGGLE_DATA_PROXY_TOKEN", env !! "KAGGLE_USER_SECRETS_TOKEN" with
  | None, None => false
  | _, _ => true
  end.

Definition init_bigquery_modules (inst : installation) (env : gmap string string)
    (m : modules) : modules :=
  if tokens_set env then
    {| bigquery_Client :=
         if has_been_monkeypatched inst (bigquery_Client m) then bigquery_Client m
         else PatchedBigqueryClient (bigquery_Client m);
       magics_context_credentials :=
         if has_bigquery (registry_of env)
         then Some (KernelCredentials {| target := BIGQUERY; token := None; expiry := None |})
         else magics_context_credentials m;
       storage_Client_init := storage_Client_init m |}
  else m.

Definition init_gcs_modules (inst : installation) (env : gmap string string)
    (m : modules) : modules :=
  match env !! "KAGGLE_USER_SECRETS_TOKEN" with
  | None => m
  | Some _ =>
      if has_gcs (registry_of env) then
        {| bigquery_Client := bigquery_Client m;
           magics_context_credentials := magics_context_credentials m;
           storage_Client_init :=
             if has_been_monkeypatched inst (storage_Client_init m)
             then storage_Client_init m
             else PatchedStorageInit (storage_Client_init m) |}
      else m
  end.

(** An installation used in examples. *)
Definition example_installation : installation :=
  {| bigquery_client_file := "/opt/conda/lib/python3.6/site-packages/google/cloud/bigquery/client.py";
     storage_client_file := "/opt/conda/lib/python3.6/site-packages/google/cloud/storage/client.py";
     kaggle_gcp_dir := "/root/.local/lib/python3.6/site-packages/" |}.

(** The gates in front of the two patches: the early returns of
    [init_bigquery] and [init_gcs], and the guard finding the vendor callable
    unpatched. *)
Definition bigquery_gate (inst : installation) (env : gmap string string) : bool :=
  tokens_set env && negb (has_been_monkeypatched inst VendorBigqueryClient).

Definition gcs_gate (inst : installation) (env : gmap string string) : bool :=
  match env !! "KAGGLE_USER_SECRETS_TOKEN" with Some _ => true | None => false end
  && has_gcs (registry_of env)
  && negb (has_been_monkeypatched inst VendorStorageInit).

(** Display names and vault behaviours used in examples. *)
Definition example_service (t : GcpTarget) : string :=
  match t with
  | BIGQUERY => "BigQuery"
  | GCS => "Google Cloud Storage"
  | AUTOML => "Cloud AutoML"
  end.

Definition vault_failing_with (e : exception) : UserSecretsClient :=
  {| UserSecretsClient_new := inr tt;
     get_bigquery_access_token := inl e;
     _get_gcs_access_token := inl e;
     _get_automl_access_token := inl e |}.

Definition vault_returning (tok : string) (exp : Z) : UserSecretsClient :=
  {| UserSecretsClient_new := inr tt;
     get_bigquery_access_token := inr (tok, exp);
     _get_gcs_access_token := inr (tok, exp);
     _get_automl_access_token := inr (tok, exp) |}.

Definition fresh_kernel_credentials (t : GcpTarget) : KaggleKernelCredentials :=
  {| target := t; token := None; expiry := None |}.

(** ** Observing a run *)

(** [o] with the events [t] in front of its trace. *)
Definition prepend {S A} (t : list event) (o : outcome S A) : outcome S A :=
  Outcome (t ++ trace o) (state o) (result o).

(** Whether a trace records the construction of an object of class [cls]. *)
Definition constructs (cls : class_name) (t : list event) : bool :=
  existsb (fun ev => match ev with
                     | EvNew c => bool_decide (c = cls)
                     | _ => false
                     end) t.

(** The public route is taken when the run reaches the call of
    [PublicBigqueryClient]. *)
Definition public_route_taken {S A} (o : outcome S A) : bool :=
  constructs cls_PublicBigqueryClient (trace o).

(** ** The routing of [monkeypatch_bq], piece by piece *)

Definition project_var : string := "GOOGLE_CLOUD_PROJECT".

(** The test in front of the public branch. *)
Definition routes_public (env : gmap string string) (kwargs : gmap string pyval) : bool :=
  is_None (explicit_project_id_of kwargs (env !! project_var))
  && is_None (kwargs_get kwargs "credentials")
  && negb (has_bigquery (registry_of env)).

(** The same test in terms of what the caller and the environment gave:
    a project keyword that is absent or falsy, no default project in the
    environment, a credentials keyword that is absent or [None], and a
    registry without BigQuery. *)
Definition no_project_resolved (env : gmap string string) (kwargs : gmap string pyval)
  : bool :=
  negb (truthy (kwargs_get kwargs "project"))
  && match env !! project_var with None => true | Some _ => false end.

(** What the branch for the unmodified client logs and prints. *)
Definition credentials_diagnostics (has_bigquery : bool) : list event :=
  [EvLogInfo "No credentials specified, using KaggleKernelCredentials.";
   EvNew cls_KaggleKernelCredentials]
  ++ (if negb has_bigquery then
        [EvLogInfo "No bigquery integration found, creating client anyways.";
         EvPrint ("Please ensure you have selected a BigQuery "
                  +:+ "account in the Kernels Settings sidebar.")]
      else []).

Definition project_diagnostics : list event :=
  [EvLogInfo "No project specified while using the unmodified client.";
   EvPrint ("Please ensure you specify a project id when creating the client"
            +:+ " in order to use your BigQuery account.")].

Definition fresh_credentials (t : GcpTarget) : pyval :=
  PyCredentials (KernelCredentials {| target := t; token := None; expiry := None |}).

(** The [else] branch: diagnostics, then the wrapped constructor. *)
Definition unmodified_client {S}
    (bq_client : list pyval -> gmap string pyval -> M S Client)
    (args : list pyval) (kwargs : gmap string pyval)
    (has_bigquery no_project : bool) (env : gmap string string) (s : S)
  : outcome S Client :=
  prepend
    ((if is_None (kwargs_get kwargs "credentials")
      then credentials_diagnostics has_bigquery else [])
     ++ (if no_project then project_diagnostics else []))
    (bq_client args
       (if is_None (kwargs_get kwargs "credentials")
        then <["credentials" := fresh_credentials BIGQUERY]> kwargs else kwargs)
       env s).

(** The claim about the public route read to the letter: the route is taken
    exactly when the call has no project keyword (absent or [None]), the
    environment has no default project, no credentials were given and the
    registry lacks BigQuery. *)
Definition public_route_as_stated (env : gmap string string) (kwargs : gmap string pyval)
  : bool :=
  is_None (kwargs_get kwargs "project")
  && match env !! project_var with None => true | Some _ => false end
  && is_None (kwargs_get kwargs "credentials")
  && negb (has_bigquery (registry_of env)).

(** The client the public route builds when the call carries neither a
    project nor a credentials keyword. *)
Definition public_client (env : gmap string string) (args : list pyval)
    (kwargs : gmap string pyval) : Client :=
  {| client_class := cls_PublicBigqueryClient;
     client_args := args;
     client_kwargs :=
       <["project" := of_option (env !! "KAGGLE_DATA_PROXY_PROJECT")]>
         (<["credentials" := PyCredentials (AnonymousCredentials true)]> kwargs);
     _connection :=
       DataProxyConnection (env !! "KAGGLE_DATA_PROXY_URL")
         (<["X-KAGGLE-PROXY-DATA" := of_option (env !! "KAGGLE_DATA_PROXY_TOKEN")]> ∅) |}.

(** ** Reading of the registry claims *)

(** An entry of the environment list names a known target when it equals one
    of the member names up to case. *)
Definition names_target (piece : string) (t : GcpTarget) : bool :=
  eq_ignore_case piece (member_name t).

Definition names_known_target (piece : string) : bool :=
  existsb (names_target piece) [BIGQUERY; GCS; AUTOML].

Definition unknown_target_log (piece : string) : event :=
  EvLogError ("Unknown integration target: " +:+ py_repr (upper piece)).

Definition integrations_var : string := "KAGGLE_KERNEL_INTEGRATIONS".

(** What one turn of the loop does to the registry and to the log, written
    as plain functions. *)
Definition add_piece (ki : KernelIntegrations) (piece : string) : KernelIntegrations :=
  match GcpTarget_lookup (upper piece) with
  | Some t => add_integration ki t
  | None => ki
  end.

Definition piece_log (piece : string) : list event :=
  if names_known_target piece then [] else [unknown_target_log piece].

(** Every character, for proofs by enumeration. *)
Definition all_ascii : list ascii := map ascii_of_nat (seq 0 256).

(** ** Counting in a trace *)

(** How many objects of class [cls] a trace records as constructed. *)
Definition count_new (cls : class_name) (t : list event) : nat :=
  List.length (List.filter (fun ev => match ev with
                                 | EvNew c => bool_decide (c = cls)
                                 | _ => false
                                 end) t).

(** Whether the vault's fetch for target [t] fails. *)
Definition vault_fails (vault : UserSecretsClient) (t : GcpTarget) : bool :=
  match vault_call vault t with inl _ => true | inr _ => false end.

Definition select_bigquery_account_msg : string :=
  "Please ensure you have selected a BigQuery account in the Kernels Settings sidebar.".

Definition specify_project_msg : string :=
  "Please ensure you specify a project id when creating the client in order to use your BigQuery account.".

(** * Properties *)

(** ** The monad *)

Lemma bind_ret_l {S A B} (a : A) (f : A -> M S B) env s :
  bind (ret a) f env s = f a env s.
Proof. unfold bind, ret; simpl. by destruct (f a env s). Qed.

Lemma outcome_eta {S A} (o : outcome S A) :
  Outcome (trace o) (state o) (result o) = o.
Proof. by destruct o. Qed.

(** ** Case folding *)

Lemma all_ascii_complete (c : ascii) : In c all_ascii.
Proof.
  unfold all_ascii. rewrite <- (ascii_nat_embedding c).
  apply in_map, in_seq. pose proof (nat_ascii_bounded c). lia.
Qed.

Lemma ascii_forall2_by_enumeration (P : ascii -> ascii -> bool) :
  forallb (fun c1 => forallb (P c1) all_ascii) all_ascii = true ->
  forall c1 c2, P c1 c2 = true.
Proof.
  intros H c1 c2. rewrite forallb_forall in H.
  specialize (H c1 (all_ascii_complete c1)). rewrite forallb_forall in H.
  exact (H c2 (all_ascii_complete c2)).
Qed.

Lemma ascii_eq_ignore_case_upper (c1 c2 : ascii) :
  upper_ascii c2 = c2 ->
  ascii_eq_ignore_case c1 c2 = true <-> upper_ascii c1 = c2.
Proof.
  pose proof (ascii_forall2_by_enumeration
    (fun a b => implb (Ascii.eqb (upper_ascii b) b)
                  (Bool.eqb (ascii_eq_ignore_case a b) (Ascii.eqb (upper_ascii a) b)))) as H.
  intros Hfix. specialize (H ltac:(vm_compute; reflexivity) c1 c2).
  cbv beta in H. apply Ascii.eqb_eq in Hfix. rewrite Hfix in H. simpl in H.
  apply Bool.eqb_prop in H. rewrite H. apply Ascii.eqb_eq.
Qed.

Lemma eq_ignore_case_upper (s1 s2 : string) :
  upper s2 = s2 ->
  eq_ignore_case s1 s2 = true <-> upper s1 = s2.
Proof.
  revert s2. induction s1 as [|c1 r1 IH]; intros [|c2 r2] Hfix; simpl in *;
    try (split; [discriminate | discriminate]); try done.
  injection Hfix as Hc Hr.
  rewrite andb_true_iff, (ascii_eq_ignore_case_upper c1 c2 Hc), (IH r2 Hr).
  split; [intros [-> ->]; done | intros [= -> ->]; done].
Qed.

Lemma member_name_upper (t : GcpTarget) : upper (member_name t) = member_name t.
Proof. by destruct t. Qed.

Lemma GcpTarget_lookup_Some (name : string) (t : GcpTarget) :
  GcpTarget_lookup name = Some t <-> name = member_name t.
Proof.
  unfold GcpTarget_lookup.
  destruct (String.eqb_spec name "BIGQUERY") as [->|H1].
  { destruct t; simpl; split; congruence. }
  destruct (String.eqb_spec name "GCS") as [->|H2].
  { destruct t; simpl; split; congruence. }
  destruct (String.eqb_spec name "AUTOML") as [->|H3].
  { destruct t; simpl; split; congruence. }
  split; [discriminate|]. intros ->. by destruct t.
Qed.

Lemma lookup_upper_names_target (piece : string) (t : GcpTarget) :
  GcpTarget_lookup (upper piece) = Some t <-> names_target piece t = true.
Proof.
  unfold names_target.
  rewrite GcpTarget_lookup_Some, (eq_ignore_case_upper _ _ (member_name_upper t)).
  done.
Qed.

Lemma lookup_upper_None (piece : string) :
  GcpTarget_lookup (upper piece) = None <-> names_known_target piece = false.
Proof.
  unfold names_known_target; simpl.
  rewrite !orb_false_iff.
  split.
  - intros HN. repeat split; try done;
      apply not_true_is_false; rewrite <- lookup_upper_names_target; congruence.
  - intros (H1 & H2 & H3 & _).
    destruct (GcpTarget_lookup (upper piece)) as [t|] eqn:E; [|done].
    apply lookup_upper_names_target in E. destruct t; congruence.
Qed.

(** ** [get_integrations] *)

Lemma get_integrations_step_outcome {S} ki piece env (s : S) :
  get_integrations_step ki piece env s
  = Outcome (piece_log piece) s (inr (add_piece ki piece)).
Proof.
  unfold get_integrations_step, try_except, bind, GcpTarget_getitem, add_piece, piece_log.
  destruct (GcpTarget_lookup (upper piece)) as [t|] eqn:E; simpl.
  - assert (names_known_target piece = true) as ->; [|done].
    apply not_false_iff_true. rewrite <- lookup_upper_None. congruence.
  - apply lookup_upper_None in E. by rewrite E.
Qed.

Lemma get_integrations_loop_outcome {S} pieces ki env (s : S) :
  get_integrations_loop pieces ki env s
  = Outcome (flat_map piece_log pieces) s (inr (fold_left add_piece pieces ki)).
Proof.
  revert ki. induction pieces as [|p ps IH]; intros ki; simpl; [done|].
  unfold bind. rewrite get_integrations_step_outcome; simpl.
  by rewrite IH.
Qed.

Lemma get_integrations_outcome {S} env (s : S) :
  get_integrations env s
  = match env !! integrations_var with
    | None => Outcome [] s (inr KernelIntegrations_init)
    | Some raw =>
        Outcome (flat_map piece_log (split ":" raw)) s
                (inr (fold_left add_piece (split ":" raw) KernelIntegrations_init))
    end.
Proof.
  unfold get_integrations, bind, os_getenv, integrations_var; simpl.
  destruct (env !! "KAGGLE_KERNEL_INTEGRATIONS") as [raw|]; simpl; [|done].
  by rewrite get_integrations_loop_outcome.
Qed.

Lemma get_integrations_registry {S} env (s : S) :
  get_integrations env s = Outcome (trace (get_integrations env tt)) s (inr (registry_of env)).
Proof.
  unfold registry_of. rewrite !get_integrations_outcome.
  by destruct (env !! integrations_var).
Qed.

Lemma has_integration_add ki t t' :
  has_integration (add_integration ki t) t' = true
  <-> t' = t \/ has_integration ki t' = true.
Proof.
  unfold has_integration, add_integration; simpl.
  destruct (decide (t = t')) as [->|Hne].
  - rewrite lookup_insert_eq. tauto.
  - rewrite lookup_insert_ne by done.
    split; [tauto | intros [->|H]; [done | exact H]].
Qed.

Lemma has_integration_fold pieces ki t :
  has_integration (fold_left add_piece pieces ki) t = true
  <-> has_integration ki t = true
      \/ exists piece, In piece pieces /\ names_target piece t = true.
Proof.
  revert ki. induction pieces as [|p ps IH]; intros ki; simpl.
  - split; [tauto | intros [H | (x & [] & _)]; exact H].
  - rewrite IH. unfold add_piece at 1.
    destruct (GcpTarget_lookup (upper p)) as [t0|] eqn:E.
    + rewrite has_integration_add. apply lookup_upper_names_target in E.
      split.
      * intros [[-> | H] | (x & Hx & Hn)]; eauto 6.
      * intros [H | (x & [<- | Hx] & Hn)]; eauto 6.
        left; left.
        apply lookup_upper_names_target in E, Hn. congruence.
    + split.
      * intros [H | (x & Hx & Hn)]; eauto 6.
      * intros [H | (x & [<- | Hx] & Hn)]; eauto 6.
        apply lookup_upper_names_target in Hn. congruence.
Qed.

Lemma integrations_values ki pieces t v :
  (forall t v, integrations ki !! t = Some v -> v = true) ->
  integrations (fold_left add_piece pieces ki) !! t = Some v -> v = true.
Proof.
  revert ki. induction pieces as [|p ps IH]; intros ki Hki; simpl; [by apply Hki|].
  apply IH. intros t1 v1. unfold add_piece.
  destruct (GcpTarget_lookup (upper p)) as [t0|]; [|by apply Hki].
  unfold add_integration; simpl.
  destruct (decide (t0 = t1)) as [->|Hne].
  - rewrite lookup_insert_eq. congruence.
  - rewrite lookup_insert_ne by done. apply Hki.
Qed.

Lemma init_values t v :
  integrations KernelIntegrations_init !! t = Some v -> v = true.
Proof. simpl. by rewrite lookup_empty. Qed.

(** Two registries built by the loop are equal as soon as they answer
    [has_integration] alike. *)
Lemma registry_ext pieces1 pieces2 :
  (forall t, has_integration (fold_left add_piece pieces1 KernelIntegrations_init) t
             = has_integration (fold_left add_piece pieces2 KernelIntegrations_init) t) ->
  fold_left add_piece pieces1 KernelIntegrations_init
  = fold_left add_piece pieces2 KernelIntegrations_init.
Proof.
  intros H.
  pose proof (fun t v => integrations_values _ pieces1 t v init_values) as V1.
  pose proof (fun t v => integrations_values _ pieces2 t v init_values) as V2.
  destruct (fold_left add_piece pieces1 KernelIntegrations_init) as [m1].
  destruct (fold_left add_piece pieces2 KernelIntegrations_init) as [m2].
  f_equal. apply map_eq. intros t. specialize (H t).
  unfold has_integration in H; simpl in *.
  specialize (V1 t). specialize (V2 t).
  destruct (m1 !! t) as [v1|], (m2 !! t) as [v2|]; try done.
  by rewrite (V1 v1), (V2 v2).
Qed.


Lemma has_bigquery_has_integration ki : has_bigquery ki = has_integration ki BIGQUERY.
Proof. reflexivity. Qed.

Lemma has_gcs_has_integration ki : has_gcs ki = has_integration ki GCS.
Proof. reflexivity. Qed.

Lemma has_automl_has_integration ki : has_automl ki = has_integration ki AUTOML.
Proof. reflexivity. Qed.

Lemma registry_of_eq env :
  registry_of env
  = match env !! integrations_var with
    | None => KernelIntegrations_init
    | Some raw => fold_left add_piece (split ":" raw) KernelIntegrations_init
    end.
Proof.
  unfold registry_of. rewrite get_integrations_outcome.
  by destruct (env !! integrations_var).
Qed.


Example get_integrations_bigquery_gcs :
  let ki := registry_of {[ integrations_var := "bigquery:gcs" ]} in
  has_bigquery ki = true /\ has_gcs ki = true /\ has_integration ki AUTOML = false.
Proof. vm_compute. done. Qed.

Example get_integrations_unknown_target :
  get_integrations {[ integrations_var := "bigquery:unknown_target" ]} tt
  = Outcome [EvLogError "Unknown integration target: 'UNKNOWN_TARGET'"] tt
            (inr (add_integration KernelIntegrations_init BIGQUERY)).
Proof. vm_compute. reflexivity. Qed.

Example get_integrations_mixed_case :
  has_gcs (registry_of {[ integrations_var := "BigQuery::gCs:" ]}) = true
  /\ trace (get_integrations {[ integrations_var := "BigQuery::gCs:" ]} tt)
     = [EvLogError "Unknown integration target: ''";
        EvLogError "Unknown integration target: ''"].
Proof. vm_compute. done. Qed.

(** ** [KaggleKernelCredentials.refresh] *)

Section RefreshProperties.

Variable service : GcpTarget -> string.

Lemma refresh_try_body vault env (self : KaggleKernelCredentials) :
  (client <- lift_result (UserSecretsClient_new vault) ;;
   self <- get_self ;;
   match target self with
   | BIGQUERY =>
       pair <- lift_result (get_bigquery_access_token vault) ;; assign_token_expiry pair
   | GCS =>
       pair <- lift_result (_get_gcs_access_token vault) ;; assign_token_expiry pair
   | AUTOML =>
       pair <- lift_result (_get_automl_access_token vault) ;; assign_token_expiry pair
   end) env self
  = match vault_call vault (target self) with
    | inr tp =>
        Outcome [] {| target := target self; token := Some (fst tp);
                      expiry := Some (snd tp) |} (inr tt)
    | inl e => Outcome [] self (inl e)
    end.
Proof.
  unfold vault_call, bind, lift_result, get_self, assign_token_expiry, set_self; simpl.
  destruct (UserSecretsClient_new vault) as [e|[]]; simpl; [done|].
  destruct self as [[] tok exp]; simpl.
  - by destruct (get_bigquery_access_token vault).
  - by destruct (_get_gcs_access_token vault).
  - by destruct (_get_automl_access_token vault).
Qed.

(** The whole of [refresh], by the vault's answer. *)
Lemma refresh_outcome vault request env (self : KaggleKernelCredentials) :
  refresh service vault request env self
  = match vault_call vault (target self) with
    | inr tp =>
        Outcome [] {| target := target self; token := Some (fst tp);
                      expiry := Some (snd tp) |} (inr tt)
    | inl e =>
        if is_ConnectionError e then
          Outcome [EvLogError ("Connection error trying to refresh access token: "
                               +:+ exception_str e);
                   EvPrint (connectivity_hint service (target self))]
                  self
                  (inl (RefreshError
                          "Unable to refresh access token due to connection error." e))
        else
          Outcome ([EvLogError ("Error trying to refresh access token: "
                                +:+ exception_str e)]
                   ++ trace (get_integrations env tt)
                   ++ (if has_integration (registry_of env) (target self) then []
                       else [EvLogError ("No " +:+ service (target self)
                                         +:+ " integration found.");
                             EvPrint (select_account_hint service (target self))]))
                  self
                  (inl (RefreshError "Unable to refresh access token." e))
    end.
Proof.
  unfold refresh, try_except. rewrite refresh_try_body.
  destruct (vault_call vault (target self)) as [e|tp]; simpl; [|done].
  assert (forall (msg : string),
    (Log_error msg ;;;
     self0 <- get_self ;;
     ki <- get_integrations ;;
     (if negb (has_integration ki (target self0)) then
        Log_error ("No " +:+ service (target self0) +:+ " integration found.") ;;;
        print ("Please ensure you have selected a " +:+ service (target self0)
               +:+ " account in the Kernels Settings sidebar.")
      else ret tt) ;;;
     raise (RefreshError "Unable to refresh access token." e)) env self
    = Outcome ([EvLogError msg]
               ++ trace (get_integrations env tt)
               ++ (if has_integration (registry_of env) (target self) then []
                   else [EvLogError ("No " +:+ service (target self)
                                     +:+ " integration found.");
                         EvPrint (select_account_hint service (target self))]))
              self
              (inl (RefreshError "Unable to refresh access token." e) : exception + unit))
    as Hother.
  { intros msg. unfold bind, Log_error, print, emit, get_self, raise, ret.
    cbn [trace state result].
    rewrite (get_integrations_registry env self); simpl.
    destruct (has_integration (registry_of env) (target self)); simpl; reflexivity. }
  destruct e; cbv beta iota; try (rewrite Hother; reflexivity).
  reflexivity.
Qed.

Lemma refresh_all_snoc env vaults vault self :
  refresh_all service env (vaults ++ [vault]) self
  = state (refresh service vault PyNone env (refresh_all service env vaults self)).
Proof. unfold refresh_all. by rewrite fold_left_app. Qed.

Lemma refresh_state vault request env self :
  state (refresh service vault request env self)
  = match vault_call vault (target self) with
    | inr tp => {| target := target self; token := Some (fst tp);
                     expiry := Some (snd tp) |}
    | inl _ => self
    end.
Proof.
  rewrite refresh_outcome.
  destruct (vault_call vault (target self)) as [e|tp]; [|done].
  by destruct (is_ConnectionError e).
Qed.

Lemma refresh_all_target env vaults self :
  target (refresh_all service env vaults self) = target self.
Proof.
  induction vaults as [|vault vaults IH] using rev_ind; [done|].
  rewrite refresh_all_snoc, refresh_state.
  by destruct (vault_call vault _).
Qed.

(** C2. Start from a credential just constructed for any target and call
    [refresh] any number of times, the vault answering or failing as it
    likes at each call. Afterwards the credential is still bound to its
    target, and either [token] and [expiry] are both [None], or both are
    set and are the pair the vault returned at one of the calls. *)
Theorem refresh_both_or_neither (env : gmap string string)
    (vaults : list UserSecretsClient) (t : GcpTarget) :
  let c := refresh_all service env vaults {| target := t; token := None; expiry := None |} in
  target c = t
  /\ ((token c = None /\ expiry c = None)
      \/ (exists vault tok exp,
            In vault vaults
            /\ vault_call vault t = inr (tok, exp)
            /\ token c = Some tok /\ expiry c = Some exp)).
Proof.
  simpl. split; [apply refresh_all_target|].
  induction vaults as [|vault vaults IH] using rev_ind; [by left|].
  rewrite refresh_all_snoc, refresh_state, refresh_all_target; simpl.
  destruct (vault_call vault t) as [e|[tok exp]] eqn:E; simpl.
  - destruct IH as [IH|(v & tok & exp & Hin & Hv & Htok & Hexp)]; [by left|].
    right. exists v, tok, exp. split; [apply in_or_app; by left | done].
  - right. exists vault, tok, exp.
    split; [apply in_or_app; right; by left | done].
Qed.

(** C3. If the vault's fetch for the credential's target raises a
    connection error, [refresh] raises [RefreshError] whose cause is that
    very error, prints exactly one line, the connectivity hint carrying the
    target's display name, and leaves the credential as it was. *)
Theorem refresh_connection_error (vault : UserSecretsClient) (request : pyval)
    (env : gmap string string) (self : KaggleKernelCredentials) (msg : string) :
  vault_call vault (target self) = inl (ConnectionError msg) ->
  let o := refresh service vault request env self in
  result o = inl (RefreshError "Unable to refresh access token due to connection error."
                               (ConnectionError msg))
  /\ List.filter is_print (trace o) = [EvPrint (connectivity_hint service (target self))]
  /\ trace o = [EvLogError ("Connection error trying to refresh access token: " +:+ msg);
                EvPrint (connectivity_hint service (target self))]
  /\ state o = self.
Proof. intros H; simpl. by rewrite refresh_outcome, H. Qed.

(** C4. If the vault's fetch raises anything that is not a connection
    error, [refresh] raises [RefreshError] whose cause is that error and
    leaves the credential as it was; the only line it can print is the
    "select an account" hint, printed exactly when the registry read from
    the environment does not have the credential's target. *)
Theorem refresh_other_error (vault : UserSecretsClient) (request : pyval)
    (env : gmap string string) (self : KaggleKernelCredentials) (e : exception) :
  vault_call vault (target self) = inl e ->
  is_ConnectionError e = false ->
  let o := refresh service vault request env self in
  result o = inl (RefreshError "Unable to refresh access token." e)
  /\ List.filter is_print (trace o)
     = (if has_integration (registry_of env) (target self) then []
        else [EvPrint (select_account_hint service (target self))])
  /\ (In (EvPrint (select_account_hint service (target self))) (trace o)
      <-> has_integration (registry_of env) (target self) = false)
  /\ state o = self.
Proof.
  intros H Hc. cbv zeta. rewrite refresh_outcome, H, Hc. cbn [trace state result].
  assert (List.filter is_print (trace (get_integrations env tt)) = []) as Hlog.
  { rewrite get_integrations_outcome.
    destruct (env !! integrations_var) as [raw|]; simpl; [|done].
    induction (split ":" raw) as [|p ps IH]; simpl; [done|].
    rewrite List.filter_app, IH, app_nil_r. unfold piece_log.
    by destruct (names_known_target p). }
  assert (~ In (EvPrint (select_account_hint service (target self)))
             (trace (get_integrations env tt))) as Hnot.
  { intros Hin.
    assert (In (EvPrint (select_account_hint service (target self)))
               (List.filter is_print (trace (get_integrations env tt)))) as Hf.
    { apply List.filter_In. split; [exact Hin | done]. }
    rewrite Hlog in Hf. destruct Hf. }
  split; [done|]. split; [|split; [|done]].
  - rewrite !List.filter_app, Hlog.
    by destruct (has_integration (registry_of env) (target self)).
  - rewrite !in_app_iff.
    destruct (has_integration (registry_of env) (target self)); cbn [In].
    + split; [intros [[?|[]]|[?|[]]]; [done | by destruct Hnot] | done].
    + split; [done|]. intros _. right. right. right. by left.
Qed.

End RefreshProperties.

(** ** [_DataProxyConnection.api_request] *)

Lemma api_request_outcome {S A} (super_api_request : M S A) env (s : S) :
  api_request super_api_request env s
  = match result (super_api_request env s) with
    | inl (Forbidden msg) =>
        Outcome (trace (super_api_request env s)
                 ++ [EvPrint permission_denied_msg; EvLogInfo permission_denied_msg])
                (state (super_api_request env s))
                (inl (Forbidden msg))
    | _ => super_api_request env s
    end.
Proof.
  unfold api_request, try_except.
  destruct (super_api_request env s) as [t s' [e|a]]; cbn [trace state result]; [|done].
  destruct e; cbn; by rewrite ?app_nil_r.
Qed.

(** C8. When the vendor's [api_request] raises [Forbidden], the proxy
    connection prints the "did you mean to select a BigQuery account" line,
    logs the same line, and raises the very same [Forbidden] error; what the
    vendor call had already logged and changed is kept. *)
Theorem api_request_forbidden {S A : Type} (super_api_request : M S A)
    (env : gmap string string) (s : S) (msg : string) :
  result (super_api_request env s) = inl (Forbidden msg) ->
  let o := api_request super_api_request env s in
  result o = inl (Forbidden msg)
  /\ trace o = (trace (super_api_request env s)
                ++ [EvPrint permission_denied_msg; EvLogInfo permission_denied_msg])%list
  /\ state o = state (super_api_request env s).
Proof. intros H; cbv zeta. by rewrite api_request_outcome, H. Qed.

Lemma api_request_transparent {S A} (super_api_request : M S A) env (s : S) :
  (forall msg, result (super_api_request env s) <> inl (Forbidden msg)) ->
  api_request super_api_request env s = super_api_request env s.
Proof.
  intros H. rewrite api_request_outcome.
  destruct (result (super_api_request env s)) as [[]|] eqn:E; try done.
  by destruct (H msg).
Qed.

(** ** Routing: [monkeypatch_bq] and [monkeypatch_gcs] *)

Lemma prepend_nil {S A} (o : outcome S A) : prepend [] o = o.
Proof. by destruct o. Qed.

Lemma prepend_prepend {S A} t1 t2 (o : outcome S A) :
  prepend t1 (prepend t2 o) = prepend (t1 ++ t2) o.
Proof. unfold prepend; cbn. by rewrite app_assoc. Qed.

Lemma bind_prepend {S A B} (m : M S A) (f : A -> M S B) env s t s' a :
  m env s = Outcome t s' (inr a) ->
  bind m f env s = prepend t (f a env s').
Proof. intros H. unfold bind, prepend. by rewrite H. Qed.

Lemma bind_raised {S A B} (m : M S A) (f : A -> M S B) env s t s' e :
  m env s = Outcome t s' (inl e) ->
  bind m f env s = Outcome t s' (inl e).
Proof. intros H. unfold bind. by rewrite H. Qed.

Lemma merge_keywords_public kwargs p c :
  merge_keywords [("project", p); ("credentials", c)] kwargs
  = match kwargs !! "project", kwargs !! "credentials" with
    | None, None => inr (<["project" := p]> (<["credentials" := c]> kwargs))
    | _, _ => inl (TypeError "got multiple values for keyword argument")
    end.
Proof.
  simpl. by destruct (kwargs !! "project"), (kwargs !! "credentials").
Qed.

Lemma PublicBigqueryClient_outcome {S} args kwargs env (s : S) :
  PublicBigqueryClient args kwargs env s
  = Outcome [EvNew cls_PublicBigqueryClient] s
      match kwargs !! "project", kwargs !! "credentials" with
      | None, None =>
          inr {| client_class := cls_PublicBigqueryClient;
                 client_args := args;
                 client_kwargs :=
                   <["project" := of_option (env !! "KAGGLE_DATA_PROXY_PROJECT")]>
                     (<["credentials" := PyCredentials (AnonymousCredentials true)]> kwargs);
                 _connection :=
                   DataProxyConnection (env !! "KAGGLE_DATA_PROXY_URL")
                     (<["X-KAGGLE-PROXY-DATA" := of_option (env !! "KAGGLE_DATA_PROXY_TOKEN")]> ∅) |}
      | _, _ => inl (TypeError "got multiple values for keyword argument")
      end.
Proof.
  unfold PublicBigqueryClient, bind, emit, os_getenv, lift_result, Client_init,
    DataProxyConnection_init, ret.
  cbn [trace state result]. rewrite merge_keywords_public.
  by destruct (kwargs !! "project"), (kwargs !! "credentials").
Qed.

Lemma bind_assoc {S A B C} (m : M S A) (f : A -> M S B) (g : B -> M S C) env s :
  bind (bind m f) g env s = bind m (fun x => bind (f x) g) env s.
Proof.
  unfold bind. destruct (m env s) as [t s' [e|a]]; cbn [trace state result]; [done|].
  destruct (f a env s') as [t2 s2 [e|b]]; cbn [trace state result]; [done|].
  by rewrite app_assoc.
Qed.

Lemma bind_emit {S B} ev (f : unit -> M S B) env s :
  bind (emit ev) f env s = prepend [ev] (f tt env s).
Proof. reflexivity. Qed.

Lemma bind_if {S A B} (b : bool) (m1 m2 : M S A) (f : A -> M S B) env s :
  bind (if b then m1 else m2) f env s
  = if b then bind m1 f env s else bind m2 f env s.
Proof. by destruct b. Qed.

Ltac mstep :=
  repeat first
    [ rewrite bind_assoc
    | rewrite bind_emit
    | rewrite bind_ret_l
    | progress cbv beta ].
Lemma is_None_explicit_project_id kwargs (e : option string) :
  is_None (explicit_project_id_of kwargs e)
  = negb (truthy (kwargs_get kwargs "project"))
    && match e with None => true | Some _ => false end.
Proof.
  unfold explicit_project_id_of, py_or.
  destruct (kwargs_get kwargs "project") as [|p| |] eqn:E; simpl; try done.
  - by destruct e.
  - destruct (String.eqb p ""); simpl; [by destruct e | done].
Qed.

Lemma routes_public_eq env kwargs :
  routes_public env kwargs
  = no_project_resolved env kwargs
    && is_None (kwargs_get kwargs "credentials")
    && negb (has_bigquery (registry_of env)).
Proof. unfold routes_public. by rewrite is_None_explicit_project_id. Qed.

Lemma truthy_not_None v : truthy v = true -> is_None v = false.
Proof. by destruct v. Qed.

Lemma kwargs_get_insert_ne kwargs k k' v :
  k <> k' -> kwargs_get (<[k := v]> kwargs) k' = kwargs_get kwargs k'.
Proof. intros H. unfold kwargs_get. by rewrite lookup_insert_ne. Qed.

(** [monkeypatch_bq] in full. *)
Lemma monkeypatch_bq_outcome {S} bq_client args kwargs env (s : S) :
  monkeypatch_bq bq_client args kwargs env s
  = let pid := explicit_project_id_of kwargs (env !! project_var) in
    prepend (trace (get_integrations env tt))
      (if truthy pid then
         prepend [EvLogInfo ("Explicit project set to " +:+ py_str pid)]
           (unmodified_client bq_client args (<["project" := pid]> kwargs)
              (has_bigquery (registry_of env)) false env s)
       else if routes_public env kwargs then
         prepend [EvLogInfo public_msg; EvPrint public_msg]
           (PublicBigqueryClient args kwargs env s)
       else
         unmodified_client bq_client args kwargs
           (has_bigquery (registry_of env)) (is_None pid) env s).
Proof.
  cbv zeta. unfold monkeypatch_bq.
  rewrite (bind_prepend _ _ _ _ _ _ _ (get_integrations_registry env s)).
  f_equal.
  rewrite (bind_prepend (os_getenv "GOOGLE_CLOUD_PROJECT") _ env s [] s
             (env !! "GOOGLE_CLOUD_PROJECT") eq_refl), prepend_nil.
  unfold routes_public, project_var.
  set (pid := explicit_project_id_of kwargs (env !! "GOOGLE_CLOUD_PROJECT")).
  set (hb := has_bigquery (registry_of env)).
  assert (forall (kw : gmap string pyval) (noproj : bool),
    kwargs_get kw "credentials" = kwargs_get kwargs "credentials" ->
    (kwargs0 <- (if is_None (kwargs_get kwargs "credentials") then
                   Log_info "No credentials specified, using KaggleKernelCredentials." ;;;
                   c <- KaggleKernelCredentials_new BIGQUERY ;;
                   let kwargs0 := <["credentials" := PyCredentials (KernelCredentials c)]> kw in
                   (if negb hb then
                      Log_info "No bigquery integration found, creating client anyways." ;;;
                      print ("Please ensure you have selected a BigQuery "
                             +:+ "account in the Kernels Settings sidebar.")
                    else ret tt) ;;;
                   ret kwargs0
                 else ret kw) ;;
     (if noproj then
        Log_info "No project specified while using the unmodified client." ;;;
        print ("Please ensure you specify a project id when creating the client"
               +:+ " in order to use your BigQuery account.")
      else ret tt) ;;;
     bq_client args kwargs0) env s
    = unmodified_client bq_client args kw hb noproj env s) as Helse.
  { intros kw noproj Hkw. unfold unmodified_client. rewrite Hkw.
    unfold Log_info, print, KaggleKernelCredentials_new, credentials_diagnostics,
      project_diagnostics, fresh_credentials.
    destruct (is_None (kwargs_get kwargs "credentials")), hb, noproj;
      cbn [negb app]; mstep; rewrite ?prepend_prepend, ?prepend_nil; reflexivity. }
  destruct (truthy pid) eqn:Ht.
  - rewrite (truthy_not_None _ Ht). cbn [andb].
    rewrite (bind_prepend _ _ env s [EvLogInfo ("Explicit project set to " +:+ py_str pid)]
               s (<["project" := pid]> kwargs) eq_refl).
    f_equal.
    exact (Helse (<["project" := pid]> kwargs) false
             (kwargs_get_insert_ne kwargs "project" "credentials" pid ltac:(done))).
  - rewrite bind_ret_l.
    destruct (is_None pid && is_None (kwargs_get kwargs "credentials") && negb hb) eqn:Hp.
    + rewrite (bind_prepend _ _ env s [EvLogInfo public_msg] s tt eq_refl).
      rewrite (bind_prepend _ _ env s [EvPrint public_msg] s tt eq_refl).
      by rewrite prepend_prepend.
    + exact (Helse kwargs (is_None pid) eq_refl).
Qed.

Lemma constructs_app cls t1 t2 :
  constructs cls (t1 ++ t2) = constructs cls t1 || constructs cls t2.
Proof. unfold constructs. apply existsb_app. Qed.

Lemma constructs_registry_log cls env :
  constructs cls (trace (get_integrations env tt)) = false.
Proof.
  rewrite get_integrations_outcome.
  destruct (env !! integrations_var) as [raw|]; cbn [trace]; [|done].
  induction (split ":" raw) as [|p ps IH]; [done|].
  cbn [flat_map]. rewrite constructs_app, IH, orb_false_r.
  unfold piece_log. by destruct (names_known_target p).
Qed.

Lemma constructs_credentials_diagnostics hb :
  constructs cls_PublicBigqueryClient (credentials_diagnostics hb) = false.
Proof. by destruct hb. Qed.

(** What the branch for the unmodified client adds in front of the wrapped
    constructor never records a public client. *)
Lemma unmodified_client_vendor {S} args kwargs hb np env (s : S) :
  exists kwargs',
    result (unmodified_client (Client_init cls_Client) args kwargs hb np env s)
    = inr {| client_class := cls_Client; client_args := args;
             client_kwargs := kwargs'; _connection := VendorConnection |}
    /\ public_route_taken
         (unmodified_client (Client_init cls_Client) args kwargs hb np env s) = false.
Proof.
  eexists. split; [reflexivity|].
  unfold public_route_taken, unmodified_client, prepend, Client_init, ret.
  cbn [trace]. rewrite !constructs_app.
  destruct (is_None (kwargs_get kwargs "credentials")), np;
    by rewrite ?constructs_credentials_diagnostics.
Qed.

Lemma public_route_taken_prepend {S A} t (o : outcome S A) :
  public_route_taken (prepend t o)
  = constructs cls_PublicBigqueryClient t || public_route_taken o.
Proof. unfold public_route_taken, prepend. cbn [trace]. apply constructs_app. Qed.

(** C1 as amended. For every call of the patched BigQuery constructor the
    public route is taken exactly when the project keyword is absent or
    falsy ([None] or the empty string), the environment has no default
    project, the credentials keyword is absent or [None], and the registry
    lacks BigQuery. On that route a call that carries neither keyword gets a
    [PublicBigqueryClient] with the anonymous credentials whose [refresh]
    does nothing, the proxy connection and the proxy project of the
    environment. On every other call the vendor constructor builds an
    ordinary client and no [PublicBigqueryClient] is created. *)
Theorem monkeypatch_bq_public_route (S : Type) (env : gmap string string)
    (args : list pyval) (kwargs : gmap string pyval) (s : S) :
  let o := monkeypatch_bq (Client_init cls_Client) args kwargs env s in
  let public := no_project_resolved env kwargs
                && is_None (kwargs_get kwargs "credentials")
                && negb (has_bigquery (registry_of env)) in
  public_route_taken o = public
  /\ (if public then
        (kwargs !! "project" = None -> kwargs !! "credentials" = None ->
         result o = inr (public_client env args kwargs))
        /\ AnonymousCredentials_refresh true env s = Outcome [] s (inr tt)
      else
        exists kwargs',
          result o = inr {| client_class := cls_Client; client_args := args;
                            client_kwargs := kwargs'; _connection := VendorConnection |}).
Proof.
  cbv zeta. rewrite monkeypatch_bq_outcome, <- routes_public_eq. cbv zeta.
  rewrite public_route_taken_prepend, constructs_registry_log. cbn [orb].
  destruct (truthy (explicit_project_id_of kwargs (env !! project_var))) eqn:Ht.
  - assert (routes_public env kwargs = false) as ->.
    { unfold routes_public. by rewrite (truthy_not_None _ Ht). }
    rewrite public_route_taken_prepend. cbn [constructs existsb orb].
    destruct (unmodified_client_vendor (S:=S) args
                (<["project" := explicit_project_id_of kwargs (env !! project_var)]> kwargs)
                (has_bigquery (registry_of env)) false env s) as (kw & Hr & Hp).
    split; [exact Hp|]. exists kw. exact Hr.
  - destruct (routes_public env kwargs) eqn:Hpub.
    + rewrite public_route_taken_prepend, PublicBigqueryClient_outcome.
      split; [done|]. split; [|done].
      intros H1 H2. cbn [prepend result]. by rewrite H1, H2.
    + destruct (unmodified_client_vendor (S:=S) args kwargs
                  (has_bigquery (registry_of env))
                  (is_None (explicit_project_id_of kwargs (env !! project_var))) env s)
        as (kw & Hr & Hp).
      split; [exact Hp|]. exists kw. exact Hr.
Qed.

(** C1 fails as stated: with the empty string as project keyword (and
    nothing in the environment) the call does carry a project argument, yet
    it goes down the public route. *)
Lemma public_route_empty_project_counterexample :
  public_route_taken
    (monkeypatch_bq (Client_init cls_Client) [] {[ "project" := PyStr "" ]} ∅ tt) = true
  /\ public_route_as_stated ∅ {[ "project" := PyStr "" ]} = false.
Proof. vm_compute. done. Qed.

Lemma constructs_kernel_registry_log env :
  constructs cls_KaggleKernelCredentials (trace (get_integrations env tt)) = false.
Proof. apply constructs_registry_log. Qed.

(** C6 as amended. When the caller passes credentials by keyword (a
    credentials keyword that is not [None]), whatever the registry, the environment and the project
    argument are: the patched BigQuery constructor calls the wrapped
    constructor with the same credentials and constructs neither a
    [KaggleKernelCredentials] nor a public client before doing so, and the
    patched storage constructor is the wrapped one called with the very same
    arguments. *)
Theorem explicit_credentials_pass_through (S : Type)
    (bq_client gcs_client_init : list pyval -> gmap string pyval -> M S Client)
    (env : gmap string string) (args : list pyval) (kwargs : gmap string pyval)
    (v : pyval) (s : S) :
  kwargs !! "credentials" = Some v ->
  is_None v = false ->
  (exists pre kwargs',
     monkeypatch_bq bq_client args kwargs env s
     = prepend pre (bq_client args kwargs' env s)
     /\ kwargs' !! "credentials" = Some v
     /\ constructs cls_KaggleKernelCredentials pre = false
     /\ constructs cls_PublicBigqueryClient pre = false)
  /\ monkeypatch_gcs gcs_client_init args kwargs env s
     = gcs_client_init args kwargs env s.
Proof.
  intros Hv Hn.
  assert (kwargs_get kwargs "credentials" = v) as Hget
    by (unfold kwargs_get; by rewrite Hv).
  split.
  - rewrite monkeypatch_bq_outcome. cbv zeta.
    assert (routes_public env kwargs = false) as ->.
    { unfold routes_public. rewrite Hget, Hn. by rewrite andb_false_r. }
    set (pid := explicit_project_id_of kwargs (env !! project_var)).
    unfold unmodified_client.
    rewrite kwargs_get_insert_ne by done. rewrite Hget, Hn. cbn [app].
    destruct (truthy pid) eqn:Ht.
    + rewrite !prepend_prepend.
      eexists _, _. split; [reflexivity|].
      split; [by rewrite lookup_insert_ne|].
      rewrite !constructs_app, !constructs_registry_log. done.
    + rewrite !prepend_prepend.
      eexists _, _. split; [reflexivity|]. split; [exact Hv|].
      rewrite !constructs_app, !constructs_registry_log.
      by destruct (is_None pid).
  - unfold monkeypatch_gcs. rewrite Hget, Hn. apply bind_ret_l.
Qed.

Lemma monkeypatch_gcs_outcome {S} gcs_client_init args kwargs env (s : S) :
  monkeypatch_gcs gcs_client_init args kwargs env s
  = if is_None (kwargs_get kwargs "credentials") then
      prepend [EvLogInfo "No credentials specified, using KaggleKernelCredentials.";
               EvNew cls_KaggleKernelCredentials]
        (gcs_client_init args (<["credentials" := fresh_credentials GCS]> kwargs) env s)
    else gcs_client_init args kwargs env s.
Proof.
  unfold monkeypatch_gcs.
  destruct (is_None (kwargs_get kwargs "credentials")); [|apply bind_ret_l].
  by rewrite (bind_prepend _ _ env s
                [EvLogInfo "No credentials specified, using KaggleKernelCredentials.";
                 EvNew cls_KaggleKernelCredentials] s
                (<["credentials" := fresh_credentials GCS]> kwargs) eq_refl).
Qed.

(** When construction through the patched BigQuery constructor fails, with
    the vendor constructor itself never failing: exactly on the public route
    with a project or credentials key present among the keywords. *)
Lemma monkeypatch_bq_result {S} env args kwargs (s : S) :
  let o := monkeypatch_bq (Client_init cls_Client) args kwargs env s in
  if routes_public env kwargs
     && negb (match kwargs !! "project", kwargs !! "credentials" with
              | None, None => true
              | _, _ => false
              end)
  then result o = inl (TypeError "got multiple values for keyword argument")
  else exists c, result o = inr c.
Proof.
  cbv zeta. rewrite monkeypatch_bq_outcome. cbv zeta.
  destruct (truthy (explicit_project_id_of kwargs (env !! project_var))) eqn:Ht.
  - assert (routes_public env kwargs = false) as ->.
    { unfold routes_public. by rewrite (truthy_not_None _ Ht). }
    cbn [andb]. eexists. reflexivity.
  - destruct (routes_public env kwargs); cbn [andb]; [|eexists; reflexivity].
    rewrite PublicBigqueryClient_outcome. cbn [prepend result].
    destruct (kwargs !! "project"), (kwargs !! "credentials"); cbn [negb];
      try reflexivity.
    eexists. reflexivity.
Qed.

(** C9, the failing call. [bigquery.Client(project=None)] in a session with
    the proxy token only, no default project and no integration: the public
    route is entered, the public message is logged and printed, and the
    construction raises [TypeError], since [PublicBigqueryClient] hands the
    vendor constructor its own [project] next to the caller's. *)
Lemma project_None_keyword_raises :
  let o := monkeypatch_bq (S:=unit) (Client_init cls_Client) []
             {[ "project" := PyNone ]} {[ "KAGGLE_DATA_PROXY_TOKEN" := "t" ]} tt in
  result o = inl (TypeError "got multiple values for keyword argument")
  /\ trace o = [EvLogInfo public_msg; EvPrint public_msg; EvNew cls_PublicBigqueryClient].
Proof. vm_compute. done. Qed.

Lemma credentials_None_keyword_raises :
  result (monkeypatch_bq (S:=unit) (Client_init cls_Client) []
            {[ "credentials" := PyNone ]} {[ "KAGGLE_DATA_PROXY_TOKEN" := "t" ]} tt)
  = inl (TypeError "got multiple values for keyword argument").
Proof. vm_compute. done. Qed.

Lemma no_keyword_constructs_public_client :
  result (monkeypatch_bq (S:=unit) (Client_init cls_Client) [] ∅
            {[ "KAGGLE_DATA_PROXY_TOKEN" := "t" ]} tt)
  = inr (public_client {[ "KAGGLE_DATA_PROXY_TOKEN" := "t" ]} [] ∅).
Proof. vm_compute. done. Qed.

(** The routing of the empty project. A call whose project keyword is the
    empty string resolves its
    project as a call without the keyword does, to the default of the
    environment; and with no such default, no credentials and no BigQuery
    integration it goes down the public route: it logs and prints the public
    message and calls [PublicBigqueryClient], never the wrapped
    constructor. *)
Theorem empty_project_is_no_project (S : Type)
    (bq_client : list pyval -> gmap string pyval -> M S Client)
    (env : gmap string string) (args : list pyval) (kwargs : gmap string pyval) (s : S) :
  kwargs !! "project" = Some (PyStr "") ->
  explicit_project_id_of kwargs (env !! project_var)
  = explicit_project_id_of (delete "project" kwargs) (env !! project_var)
  /\ explicit_project_id_of kwargs (env !! project_var) = of_option (env !! project_var)
  /\ (env !! project_var = None ->
      is_None (kwargs_get kwargs "credentials") = true ->
      has_bigquery (registry_of env) = false ->
      let o := monkeypatch_bq bq_client args kwargs env s in
      public_route_taken o = true
      /\ trace o = (trace (get_integrations env tt)
                    ++ [EvLogInfo public_msg; EvPrint public_msg;
                        EvNew cls_PublicBigqueryClient])%list).
Proof.
  intros Hp.
  assert (explicit_project_id_of kwargs (env !! project_var)
          = of_option (env !! project_var)) as Hpid.
  { unfold explicit_project_id_of, kwargs_get. by rewrite Hp. }
  split; [|split; [exact Hpid|]].
  - rewrite Hpid. unfold explicit_project_id_of, kwargs_get.
    by rewrite lookup_delete_eq.
  - intros He Hc Hb. cbv zeta. rewrite monkeypatch_bq_outcome. cbv zeta.
    rewrite Hpid, He. cbn [of_option truthy].
    assert (routes_public env kwargs = true) as ->.
    { unfold routes_public. by rewrite Hpid, He, Hc, Hb. }
    rewrite PublicBigqueryClient_outcome, prepend_prepend.
    split.
    + rewrite public_route_taken_prepend, constructs_app. cbn.
      by rewrite orb_true_r.
    + cbn [prepend trace]. by rewrite <- app_assoc.
Qed.

(** ** The patch guard and [init] *)

Lemma bind_os_getenv {S B} key (f : option string -> M S B) env s :
  bind (os_getenv key) f env s = f (env !! key) env s.
Proof. apply bind_ret_l. Qed.

Lemma bind_get_self {S B} (f : S -> M S B) env s :
  bind get_self f env s = f s env s.
Proof. apply bind_ret_l. Qed.

Lemma bind_set_self {S B} (s' : S) (f : unit -> M S B) env s :
  bind (set_self s') f env s = f tt env s'.
Proof. unfold bind, set_self; cbn. by destruct (f tt env s'). Qed.

Lemma bind_get_integrations {S B} (f : KernelIntegrations -> M S B) env s :
  bind get_integrations f env s
  = prepend (trace (get_integrations env tt)) (f (registry_of env) env s).
Proof. apply bind_prepend, get_integrations_registry. Qed.

Lemma contains_prefix needle hay :
  String.prefix needle hay = true -> contains needle hay = true.
Proof. intros H. destruct hay; simpl in *; by rewrite H. Qed.

Lemma contains_append needle pre hay :
  contains needle hay = true -> contains needle (pre +:+ hay) = true.
Proof.
  intros H. induction pre as [|c pre IH]; [exact H|].
  change (contains needle (String c pre +:+ hay))
    with (String.prefix needle (String c (pre +:+ hay)) || contains needle (pre +:+ hay)).
  rewrite IH. apply orb_true_r.
Qed.

Lemma kaggle_gcp_file_marked inst : contains "kaggle_gcp" (kaggle_gcp_file inst) = true.
Proof. unfold kaggle_gcp_file. by apply contains_append. Qed.

Lemma patched_bigquery_detected inst c :
  has_been_monkeypatched inst (PatchedBigqueryClient c) = true.
Proof. apply kaggle_gcp_file_marked. Qed.

Lemma patched_storage_detected inst c :
  has_been_monkeypatched inst (PatchedStorageInit c) = true.
Proof. apply kaggle_gcp_file_marked. Qed.

Ltac mrun :=
  repeat first
    [ rewrite bind_assoc
    | rewrite bind_emit
    | rewrite bind_ret_l
    | rewrite bind_os_getenv
    | rewrite bind_get_self
    | rewrite bind_set_self
    | rewrite bind_get_integrations
    | progress cbv beta ].

Lemma init_bigquery_outcome inst env m :
  state (init_bigquery inst env m) = init_bigquery_modules inst env m
  /\ result (init_bigquery inst env m) = inr tt.
Proof.
  unfold init_bigquery, in_os_environ, init_bigquery_modules, tokens_set,
    KaggleKernelCredentials_new.
  mrun. destruct m as [bq mc st].
  destruct (env !! "KAGGLE_DATA_PROXY_TOKEN"), (env !! "KAGGLE_USER_SECRETS_TOKEN");
    cbn [orb negb]; try done;
    mrun; destruct (has_bigquery (registry_of env)); mrun;
    cbn [bigquery_Client magics_context_credentials storage_Client_init];
    destruct (has_been_monkeypatched inst bq); done.
Qed.

Lemma init_gcs_outcome inst env m :
  state (init_gcs inst env m) = init_gcs_modules inst env m
  /\ result (init_gcs inst env m) = inr tt.
Proof.
  unfold init_gcs, in_os_environ, init_gcs_modules.
  mrun. destruct m as [bq mc st].
  destruct (env !! "KAGGLE_USER_SECRETS_TOKEN"); cbn [negb]; try done.
  mrun. destruct (has_gcs (registry_of env)); cbn [negb]; try done.
  mrun. cbn [bigquery_Client magics_context_credentials storage_Client_init].
  destruct (has_been_monkeypatched inst st); done.
Qed.

Lemma bind_state_result {S A B} (m : M S A) (f : A -> M S B) env s a :
  result (m env s) = inr a ->
  state (bind m f env s) = state (f a env (state (m env s)))
  /\ result (bind m f env s) = result (f a env (state (m env s))).
Proof. intros H. unfold bind. by rewrite H. Qed.

Lemma init_outcome inst env m :
  state (init inst env m) = init_gcs_modules inst env (init_bigquery_modules inst env m)
  /\ result (init inst env m) = inr tt.
Proof.
  unfold init.
  destruct (init_bigquery_outcome inst env m) as [Hs Hr].
  destruct (bind_state_result (init_bigquery inst) (fun _ => init_gcs inst) env m tt Hr)
    as [-> ->].
  rewrite Hs. apply init_gcs_outcome.
Qed.

Lemma init_twice_outcome inst env m :
  state ((init inst ;;; init inst) env m)
  = init_gcs_modules inst env (init_bigquery_modules inst env
      (init_gcs_modules inst env (init_bigquery_modules inst env m)))
  /\ result ((init inst ;;; init inst) env m) = inr tt.
Proof.
  destruct (init_outcome inst env m) as [Hs Hr].
  destruct (bind_state_result (init inst) (fun _ => init inst) env m tt Hr) as [-> ->].
  rewrite Hs. apply init_outcome.
Qed.

(** Running [init] a second time changes nothing, whatever the modules
    looked like before the first run. *)
Lemma init_modules_idempotent inst env m :
  init_gcs_modules inst env (init_bigquery_modules inst env
    (init_gcs_modules inst env (init_bigquery_modules inst env m)))
  = init_gcs_modules inst env (init_bigquery_modules inst env m).
Proof.
  unfold init_gcs_modules, init_bigquery_modules.
  destruct m as [bq mc st].
  destruct (tokens_set env), (env !! "KAGGLE_USER_SECRETS_TOKEN"),
    (has_gcs (registry_of env)), (has_bigquery (registry_of env));
    cbn [bigquery_Client magics_context_credentials storage_Client_init]; try done;
    destruct (has_been_monkeypatched inst bq) eqn:Hb,
             (has_been_monkeypatched inst st) eqn:Hs;
    rewrite ?Hb, ?Hs, ?patched_bigquery_detected, ?patched_storage_detected; done.
Qed.

Lemma init_idempotent inst env m :
  state ((init inst ;;; init inst) env m) = state (init inst env m).
Proof.
  destruct (init_twice_outcome inst env m) as [-> _].
  destruct (init_outcome inst env m) as [-> _].
  apply init_modules_idempotent.
Qed.

Lemma init_pristine_modules inst env :
  let m := init_gcs_modules inst env (init_bigquery_modules inst env pristine) in
  bigquery_Client m
  = (if bigquery_gate inst env then PatchedBigqueryClient VendorBigqueryClient
     else VendorBigqueryClient)
  /\ storage_Client_init m
     = (if gcs_gate inst env then PatchedStorageInit VendorStorageInit
        else VendorStorageInit).
Proof.
  cbv zeta. unfold init_gcs_modules, init_bigquery_modules, bigquery_gate, gcs_gate, pristine.
  destruct (tokens_set env), (env !! "KAGGLE_USER_SECRETS_TOKEN"),
    (has_gcs (registry_of env));
    cbn [bigquery_Client magics_context_credentials storage_Client_init andb];
    destruct (has_been_monkeypatched inst VendorBigqueryClient),
             (has_been_monkeypatched inst VendorStorageInit); done.
Qed.

(** C5 as amended. Run [init] twice in sequence on the unpatched modules.
    The second run raises nothing and leaves the modules exactly as the first
    run left them. Each constructor ends with one broker wrapper when its
    gate is open (for BigQuery: a proxy or user-secrets token in the
    environment; for storage: the user-secrets token and the GCS integration;
    for both: a vendor source path that does not itself contain
    "kaggle_gcp") and with none otherwise; so a call through the final
    constructor runs the broker's routing once, or not at all, never
    twice. *)
Theorem init_twice_single_layer (inst : installation) (env : gmap string string) :
  let once := init inst env pristine in
  let twice := (init inst ;;; init inst) env pristine in
  result twice = inr tt
  /\ state twice = state once
  /\ bigquery_Client (state twice)
     = (if bigquery_gate inst env then PatchedBigqueryClient VendorBigqueryClient
        else VendorBigqueryClient)
  /\ storage_Client_init (state twice)
     = (if gcs_gate inst env then PatchedStorageInit VendorStorageInit
        else VendorStorageInit)
  /\ bigquery_layers (bigquery_Client (state twice))
     = (if bigquery_gate inst env then 1 else 0)
  /\ storage_layers (storage_Client_init (state twice))
     = (if gcs_gate inst env then 1 else 0)
  /\ (forall (S : Type) args kwargs (s : S),
        call_bigquery_Client (bigquery_Client (state twice)) args kwargs env s
        = if bigquery_gate inst env
          then monkeypatch_bq (Client_init cls_Client) args kwargs env s
          else Client_init cls_Client args kwargs env s)
  /\ (forall (S : Type) args kwargs (s : S),
        call_storage_Client_init (storage_Client_init (state twice)) args kwargs env s
        = if gcs_gate inst env
          then monkeypatch_gcs (Client_init cls_Client) args kwargs env s
          else Client_init cls_Client args kwargs env s).
Proof.
  cbv zeta.
  destruct (init_twice_outcome inst env pristine) as [Hs Hr].
  split; [exact Hr|]. split; [apply init_idempotent|].
  rewrite Hs, init_modules_idempotent.
  destruct (init_pristine_modules inst env) as [-> ->].
  destruct (bigquery_gate inst env), (gcs_gate inst env); repeat split.
Qed.

(** C5 fails as stated: without any token in the environment two runs of
    [init] leave [bigquery.Client] with no wrapper at all, and in a session
    that has the user-secrets token but not the GCS integration they leave
    [storage.Client.__init__] with none. *)
Lemma init_twice_no_layer_counterexample :
  bigquery_layers
    (bigquery_Client
       (state ((init example_installation ;;; init example_installation) ∅ pristine))) = 0
  /\ storage_layers
       (storage_Client_init
          (state ((init example_installation ;;; init example_installation)
                    {[ "KAGGLE_USER_SECRETS_TOKEN" := "t" ]} pristine))) = 0.
Proof. vm_compute. done. Qed.

Example init_twice_proxy_session :
  let env : gmap string string := {[ "KAGGLE_DATA_PROXY_TOKEN" := "t" ]} in
  let m := state ((init example_installation ;;; init example_installation) env pristine) in
  bigquery_Client m = PatchedBigqueryClient VendorBigqueryClient
  /\ result (call_bigquery_Client (S:=unit) (bigquery_Client m) []
               {[ "project" := PyNone ]} env tt)
     = inl (TypeError "got multiple values for keyword argument")
  /\ result (call_bigquery_Client (S:=unit) (bigquery_Client m) []
               {[ "project" := PyStr "" ]} env tt)
     = inl (TypeError "got multiple values for keyword argument").
Proof. vm_compute. done. Qed.

(** ** The theorems at concrete inputs *)

Lemma refresh_connection_error_witness :
  vault_call (vault_failing_with (ConnectionError "unreachable")) GCS
  = inl (ConnectionError "unreachable")
  /\ result (refresh example_service (vault_failing_with (ConnectionError "unreachable"))
               PyNone ∅ (fresh_kernel_credentials GCS))
     = inl (RefreshError "Unable to refresh access token due to connection error."
                         (ConnectionError "unreachable"))
  /\ List.filter is_print
       (trace (refresh example_service (vault_failing_with (ConnectionError "unreachable"))
                 PyNone ∅ (fresh_kernel_credentials GCS)))
     = [EvPrint (connectivity_hint example_service GCS)].
Proof.
  split; [reflexivity|].
  pose proof (refresh_connection_error example_service
                (vault_failing_with (ConnectionError "unreachable")) PyNone ∅
                (fresh_kernel_credentials GCS) "unreachable" eq_refl) as H.
  split; [exact (proj1 H) | exact (proj1 (proj2 H))].
Defined.

Lemma refresh_other_error_witness :
  vault_call (vault_failing_with (OtherException "denied")) BIGQUERY
  = inl (OtherException "denied")
  /\ is_ConnectionError (OtherException "denied") = false
  /\ result (refresh example_service (vault_failing_with (OtherException "denied"))
               PyNone {[ integrations_var := "gcs" ]} (fresh_kernel_credentials BIGQUERY))
     = inl (RefreshError "Unable to refresh access token." (OtherException "denied"))
  /\ List.filter is_print
       (trace (refresh example_service (vault_failing_with (OtherException "denied"))
                 PyNone {[ integrations_var := "gcs" ]} (fresh_kernel_credentials BIGQUERY)))
     = (if has_integration (registry_of {[ integrations_var := "gcs" ]}) BIGQUERY then []
        else [EvPrint (select_account_hint example_service BIGQUERY)]).
Proof.
  split; [reflexivity|]. split; [reflexivity|].
  pose proof (refresh_other_error example_service
                (vault_failing_with (OtherException "denied")) PyNone
                {[ integrations_var := "gcs" ]}
                (fresh_kernel_credentials BIGQUERY) (OtherException "denied")
                eq_refl eq_refl) as H.
  split; [exact (proj1 H) | exact (proj1 (proj2 H))].
Defined.

Example refresh_other_error_hint_printed :
  List.filter is_print
    (trace (refresh example_service (vault_failing_with (OtherException "denied"))
              PyNone {[ integrations_var := "gcs" ]} (fresh_kernel_credentials BIGQUERY)))
  = [EvPrint "Please ensure you have selected a BigQuery account in the Kernels Settings sidebar."]
  /\ List.filter is_print
       (trace (refresh example_service (vault_failing_with (OtherException "denied"))
                 PyNone {[ integrations_var := "bigquery" ]}
                 (fresh_kernel_credentials BIGQUERY)))
     = [].
Proof. vm_compute. done. Qed.

Example refresh_twice_failing_vault :
  refresh_all example_service ∅
    [vault_failing_with (OtherException "denied");
     vault_failing_with (ConnectionError "unreachable")]
    (fresh_kernel_credentials AUTOML)
  = fresh_kernel_credentials AUTOML.
Proof. vm_compute. done. Qed.

Example refresh_success_then_failure :
  refresh_all example_service ∅
    [vault_returning "ya29.token" 1600000000;
     vault_failing_with (ConnectionError "unreachable")]
    (fresh_kernel_credentials BIGQUERY)
  = {| target := BIGQUERY; token := Some "ya29.token"; expiry := Some 1600000000%Z |}.
Proof. vm_compute. done. Qed.

Lemma api_request_forbidden_witness :
  result (raise (S:=unit) (A:=pyval) (Forbidden "403 Access Denied") ∅ tt)
  = inl (Forbidden "403 Access Denied")
  /\ result (api_request (raise (S:=unit) (A:=pyval) (Forbidden "403 Access Denied")) ∅ tt)
     = inl (Forbidden "403 Access Denied")
  /\ trace (api_request (raise (S:=unit) (A:=pyval) (Forbidden "403 Access Denied")) ∅ tt)
     = [EvPrint permission_denied_msg; EvLogInfo permission_denied_msg].
Proof.
  split; [reflexivity|].
  pose proof (api_request_forbidden (raise (S:=unit) (A:=pyval) (Forbidden "403 Access Denied"))
                ∅ tt "403 Access Denied" eq_refl) as H.
  split; [exact (proj1 H) | exact (proj1 (proj2 H))].
Defined.

Lemma explicit_credentials_pass_through_witness :
  ({[ "credentials" := PyCredentials (CallerCredentials 7);
      "project" := PyStr "my-project" ]} : gmap string pyval) !! "credentials"
  = Some (PyCredentials (CallerCredentials 7))
  /\ is_None (PyCredentials (CallerCredentials 7)) = false
  /\ monkeypatch_gcs (S:=unit) (Client_init cls_Client) []
       {[ "credentials" := PyCredentials (CallerCredentials 7);
          "project" := PyStr "my-project" ]} ∅ tt
     = Client_init cls_Client []
         {[ "credentials" := PyCredentials (CallerCredentials 7);
            "project" := PyStr "my-project" ]} ∅ tt.
Proof.
  split; [reflexivity|]. split; [reflexivity|].
  exact (proj2 (explicit_credentials_pass_through unit
                  (Client_init cls_Client) (Client_init cls_Client) ∅ []
                  {[ "credentials" := PyCredentials (CallerCredentials 7);
                     "project" := PyStr "my-project" ]}
                  (PyCredentials (CallerCredentials 7)) tt eq_refl eq_refl)).
Defined.

Example explicit_credentials_bigquery :
  monkeypatch_bq (S:=unit) (Client_init cls_Client) []
    {[ "credentials" := PyCredentials (CallerCredentials 7) ]} ∅ tt
  = Outcome [EvLogInfo "No project specified while using the unmodified client.";
             EvPrint "Please ensure you specify a project id when creating the client in order to use your BigQuery account."]
            tt
            (inr {| client_class := cls_Client; client_args := [];
                    client_kwargs := {[ "credentials" := PyCredentials (CallerCredentials 7) ]};
                    _connection := VendorConnection |}).
Proof. vm_compute. done. Qed.

Lemma empty_project_is_no_project_witness :
  ({[ "project" := PyStr "" ]} : gmap string pyval) !! "project" = Some (PyStr "")
  /\ explicit_project_id_of {[ "project" := PyStr "" ]}
       (({[ project_var := "env-project" ]} : gmap string string) !! project_var)
     = PyStr "env-project"
  /\ public_route_taken
       (monkeypatch_bq (S:=unit) (Client_init cls_Client) [] {[ "project" := PyStr "" ]} ∅ tt)
     = true.
Proof.
  split; [reflexivity|].
  split.
  - exact (proj1 (proj2 (empty_project_is_no_project unit (Client_init cls_Client)
                           {[ project_var := "env-project" ]} []
                           {[ "project" := PyStr "" ]} tt eq_refl))).
  - exact (proj1 (proj2 (proj2 (empty_project_is_no_project unit (Client_init cls_Client)
                                  ∅ [] {[ "project" := PyStr "" ]} tt eq_refl))
                   eq_refl eq_refl eq_refl)).
Defined.

(** * Further properties of the module *)

(** ** The registry *)

(** Adding to and asking a [KernelIntegrations]: a target added is there,
    adding it changes the answer for no other target, a new registry has
    nothing, adding twice is adding once, and the order of two additions
    does not matter. *)
Theorem KernelIntegrations_add_has (ki : KernelIntegrations) (t t' : GcpTarget) :
  has_integration (add_integration ki t) t = true
  /\ has_integration (add_integration ki t) t'
     = (bool_decide (t' = t) || has_integration ki t')
  /\ has_integration KernelIntegrations_init t = false
  /\ add_integration (add_integration ki t) t = add_integration ki t
  /\ add_integration (add_integration ki t) t' = add_integration (add_integration ki t') t.
Proof.
  unfold has_integration, add_integration, KernelIntegrations_init; cbn [integrations].
  split; [by rewrite lookup_insert_eq|].
  split.
  { destruct (decide (t' = t)) as [->|Hne].
    - by rewrite lookup_insert_eq, bool_decide_eq_true_2.
    - by rewrite lookup_insert_ne, bool_decide_eq_false_2. }
  split; [by rewrite lookup_empty|].
  split; [by rewrite insert_insert_eq|].
  f_equal. destruct (decide (t = t')) as [->|Hne]; [done|].
  by apply insert_insert_ne.
Qed.

(** The registry read from the environment depends only on which entries
    the list holds, not on their order or on how often each occurs. *)
Theorem get_integrations_order_irrelevant (env1 env2 : gmap string string)
    (raw1 raw2 : string) :
  env1 !! integrations_var = Some raw1 ->
  env2 !! integrations_var = Some raw2 ->
  (forall piece, In piece (split ":" raw1) <-> In piece (split ":" raw2)) ->
  registry_of env1 = registry_of env2.
Proof.
  intros H1 H2 Hsame. rewrite !registry_of_eq, H1, H2.
  apply registry_ext. intros t. apply eq_true_iff_eq.
  rewrite !has_integration_fold.
  split; intros [H|(p & Hp & Hn)]; eauto; right; exists p; split; try done;
    by apply Hsame.
Qed.

Lemma get_integrations_order_irrelevant_witness :
  registry_of {[ integrations_var := "gcs:bigquery" ]}
  = registry_of {[ integrations_var := "bigquery:gcs:bigquery" ]}.
Proof.
  apply (get_integrations_order_irrelevant _ _ "gcs:bigquery" "bigquery:gcs:bigquery");
    [reflexivity | reflexivity |].
  intros piece; cbn; tauto.
Defined.

(** ** The patch guard *)

Lemma prefix_iff (a b : string) :
  String.prefix a b = true <-> exists post, b = a +:+ post.
Proof.
  revert b. induction a as [|c a IH]; intros b.
  - split; [intros _; by exists b | intros _; by destruct b].
  - destruct b as [|d b]; cbn [String.prefix].
    + split; [discriminate | intros (post & H); discriminate].
    + destruct (ascii_dec c d) as [->|Hne].
      * rewrite IH. split; intros (post & H); exists post.
        -- by rewrite H.
        -- by injection H.
      * split; [discriminate | intros (post & H); by injection H].
Qed.

Lemma contains_iff (needle hay : string) :
  contains needle hay = true <-> exists pre post, hay = pre +:+ needle +:+ post.
Proof.
  induction hay as [|c hay IH].
  - cbn [contains]. rewrite orb_false_r, prefix_iff. split.
    + intros (post & H). by exists "", post.
    + intros (pre & post & H). destruct pre; [by exists post | discriminate].
  - cbn [contains]. rewrite orb_true_iff, prefix_iff, IH. split.
    + intros [(post & H)|(pre & post & H)].
      * by exists "", post.
      * exists (String c pre), post. cbn. by rewrite H.
    + intros (pre & post & H). destruct pre as [|d pre].
      * left. by exists post.
      * right. exists pre, post. by injection H.
Qed.


(** ** Refreshing *)

Section RefreshFurther.

Variable service : GcpTarget -> string.

Lemma refresh_all_failing env vaults self :
  forallb (fun v => vault_fails v (target self)) vaults = true ->
  refresh_all service env vaults self = self.
Proof.
  revert self. induction vaults as [|v vs IH]; intros self H; [done|].
  cbn [forallb] in H. apply andb_true_iff in H as [Hv Hvs].
  unfold refresh_all; cbn [fold_left]. fold (refresh_all service env vs).
  rewrite refresh_state. unfold vault_fails in Hv.
  destruct (vault_call v (target self)); [|done]. by apply IH.
Qed.

(** A successful [refresh] returns normally, says nothing, and replaces both
    [token] and [expiry] by the pair the vault returned, whatever the
    credential held before; the target stays. *)
Theorem refresh_success (vault : UserSecretsClient) (request : pyval)
    (env : gmap string string) (self : KaggleKernelCredentials)
    (tok : string) (exp : Z) :
  vault_call vault (target self) = inr (tok, exp) ->
  refresh service vault request env self
  = Outcome [] {| target := target self; token := Some tok; expiry := Some exp |} (inr tt).
Proof. intros H. by rewrite refresh_outcome, H. Qed.

(** [refresh] asks the vault only for the token of the credential's own
    target and ignores its [request] argument: two vaults that answer alike
    for that target give the same run, whatever they would answer for the
    other targets. *)
Theorem refresh_own_target_only (vault1 vault2 : UserSecretsClient)
    (request1 request2 : pyval) (env : gmap string string)
    (self : KaggleKernelCredentials) :
  vault_call vault1 (target self) = vault_call vault2 (target self) ->
  refresh service vault1 request1 env self = refresh service vault2 request2 env self.
Proof. intros H. by rewrite !refresh_outcome, H. Qed.

(** Failed attempts never clear or change what the credential holds: after
    any number of failing calls it is exactly what it was. *)
Theorem refresh_failures_keep_token (env : gmap string string)
    (vaults : list UserSecretsClient) (self : KaggleKernelCredentials) :
  forallb (fun v => vault_fails v (target self)) vaults = true ->
  refresh_all service env vaults self = self.
Proof. apply refresh_all_failing. Qed.

(** The credential holds the pair of the most recent successful call: after
    a call that succeeded with [(tok, exp)], followed by calls that all
    fail, [token] and [expiry] are [tok] and [exp], whatever happened
    before. *)
Theorem refresh_last_success_wins (env : gmap string string)
    (before after : list UserSecretsClient) (vault : UserSecretsClient)
    (self : KaggleKernelCredentials) (tok : string) (exp : Z) :
  vault_call vault (target self) = inr (tok, exp) ->
  forallb (fun v => vault_fails v (target self)) after = true ->
  refresh_all service env (before ++ vault :: after)%list self
  = {| target := target self; token := Some tok; expiry := Some exp |}.
Proof.
  intros Hv Hafter. unfold refresh_all. rewrite fold_left_app. cbn [fold_left].
  fold (refresh_all service env before self).
  fold (refresh_all service env after).
  rewrite refresh_state, refresh_all_target, Hv. cbn [fst snd].
  by apply refresh_all_failing.
Qed.

End RefreshFurther.

Lemma refresh_success_witness :
  vault_call (vault_returning "ya29.a" 1600000000) GCS = inr ("ya29.a", 1600000000%Z)
  /\ refresh example_service (vault_returning "ya29.a" 1600000000) PyNone ∅
       {| target := GCS; token := Some "old"; expiry := Some 5%Z |}
     = Outcome [] {| target := GCS; token := Some "ya29.a"; expiry := Some 1600000000%Z |}
               (inr tt).
Proof.
  split; [reflexivity|].
  exact (refresh_success example_service (vault_returning "ya29.a" 1600000000) PyNone ∅
           {| target := GCS; token := Some "old"; expiry := Some 5%Z |}
           "ya29.a" 1600000000%Z eq_refl).
Defined.

Lemma refresh_own_target_only_witness :
  vault_call {| UserSecretsClient_new := inr tt;
                get_bigquery_access_token := inl (OtherException "denied");
                _get_gcs_access_token := inr ("ya29.g", 7%Z);
                _get_automl_access_token := inl (ConnectionError "down") |} GCS
  = vault_call (vault_returning "ya29.g" 7) GCS
  /\ refresh example_service
       {| UserSecretsClient_new := inr tt;
          get_bigquery_access_token := inl (OtherException "denied");
          _get_gcs_access_token := inr ("ya29.g", 7%Z);
          _get_automl_access_token := inl (ConnectionError "down") |}
       PyNone ∅ (fresh_kernel_credentials GCS)
     = refresh example_service (vault_returning "ya29.g" 7) (PyObject 1) ∅
         (fresh_kernel_credentials GCS).
Proof.
  split; [reflexivity|].
  exact (refresh_own_target_only example_service _ (vault_returning "ya29.g" 7)
           PyNone (PyObject 1) ∅ (fresh_kernel_credentials GCS) eq_refl).
Defined.

Lemma refresh_failures_keep_token_witness :
  forallb (fun v => vault_fails v BIGQUERY)
    [vault_failing_with (ConnectionError "down"); vault_failing_with (OtherException "denied")]
  = true
  /\ refresh_all example_service ∅
       [vault_failing_with (ConnectionError "down"); vault_failing_with (OtherException "denied")]
       {| target := BIGQUERY; token := Some "ya29.valid"; expiry := Some 9%Z |}
     = {| target := BIGQUERY; token := Some "ya29.valid"; expiry := Some 9%Z |}.
Proof.
  split; [reflexivity|].
  exact (refresh_failures_keep_token example_service ∅
           [vault_failing_with (ConnectionError "down");
            vault_failing_with (OtherException "denied")]
           {| target := BIGQUERY; token := Some "ya29.valid"; expiry := Some 9%Z |} eq_refl).
Defined.

Lemma refresh_last_success_wins_witness :
  vault_call (vault_returning "ya29.second" 20) AUTOML = inr ("ya29.second", 20%Z)
  /\ forallb (fun v => vault_fails v AUTOML) [vault_failing_with (ConnectionError "down")]
     = true
  /\ refresh_all example_service ∅
       ([vault_returning "ya29.first" 10; vault_failing_with (OtherException "denied")]
        ++ vault_returning "ya29.second" 20 :: [vault_failing_with (ConnectionError "down")])%list
       (fresh_kernel_credentials AUTOML)
     = {| target := AUTOML; token := Some "ya29.second"; expiry := Some 20%Z |}.
Proof.
  split; [reflexivity|]. split; [reflexivity|].
  exact (refresh_last_success_wins example_service ∅
           [vault_returning "ya29.first" 10; vault_failing_with (OtherException "denied")]
           [vault_failing_with (ConnectionError "down")]
           (vault_returning "ya29.second" 20)
           (fresh_kernel_credentials AUTOML) "ya29.second" 20%Z eq_refl eq_refl).
Defined.

(** ** The proxy connection *)

(** The proxy connection changes nothing unless the vendor call raises
    [Forbidden]: a response, or any other exception, comes back exactly as
    the vendor call produced it, with no line printed or logged on top. *)
Theorem api_request_other_outcomes (S A : Type) (super_api_request : M S A)
    (env : gmap string string) (s : S) :
  (forall msg, result (super_api_request env s) <> inl (Forbidden msg)) ->
  api_request super_api_request env s = super_api_request env s.
Proof.
  intros H. rewrite api_request_outcome.
  destruct (result (super_api_request env s)) as [[]|] eqn:E; try done.
  by destruct (H msg).
Qed.

Lemma api_request_other_outcomes_witness :
  (forall msg, result (raise (S:=unit) (A:=pyval) (OtherException "500") ∅ tt)
               <> inl (Forbidden msg))
  /\ api_request (raise (S:=unit) (A:=pyval) (OtherException "500")) ∅ tt
     = raise (OtherException "500") ∅ tt.
Proof.
  split; [intros msg; discriminate|].
  apply (api_request_other_outcomes unit pyval (raise (OtherException "500")) ∅ tt).
  intros msg; discriminate.
Defined.

(** ** The public client used directly *)

(** [PublicBigqueryClient] called directly: with neither a project nor a
    credentials keyword it builds a client of that class on the proxy
    connection, with the proxy project and token of the environment,
    anonymous credentials with the silenced [refresh], the positional
    arguments and every other keyword as given; with either keyword present
    it raises [TypeError]. Either way it changes no state and prints
    nothing. *)
Theorem PublicBigqueryClient_direct (S : Type) (env : gmap string string)
    (args : list pyval) (kwargs : gmap string pyval) (s : S) :
  let o := PublicBigqueryClient args kwargs env s in
  state o = s
  /\ List.filter is_print (trace o) = []
  /\ match kwargs !! "project", kwargs !! "credentials" with
     | None, None =>
         exists c,
           result o = inr c
           /\ client_class c = cls_PublicBigqueryClient
           /\ client_args c = args
           /\ client_kwargs c !! "project"
              = Some (of_option (env !! "KAGGLE_DATA_PROXY_PROJECT"))
           /\ client_kwargs c !! "credentials"
              = Some (PyCredentials (AnonymousCredentials true))
           /\ (forall k, k <> "project" -> k <> "credentials" ->
                         client_kwargs c !! k = kwargs !! k)
           /\ exists headers,
                _connection c = DataProxyConnection (env !! "KAGGLE_DATA_PROXY_URL") headers
                /\ headers !! "X-KAGGLE-PROXY-DATA"
                   = Some (of_option (env !! "KAGGLE_DATA_PROXY_TOKEN"))
     | _, _ => result o = inl (TypeError "got multiple values for keyword argument")
     end.
Proof.
  cbv zeta. rewrite PublicBigqueryClient_outcome. cbn [state trace result].
  split; [done|]. split; [done|].
  destruct (kwargs !! "project"), (kwargs !! "credentials"); try done.
  eexists. split; [reflexivity|]. cbn [client_class client_args client_kwargs _connection].
  split; [done|]. split; [done|].
  split; [by rewrite lookup_insert_eq|].
  split; [by rewrite lookup_insert_ne, lookup_insert_eq|].
  split; [intros k H1 H2; by rewrite !lookup_insert_ne|].
  eexists. split; [reflexivity|]. by rewrite lookup_insert_eq.
Qed.

(** ** What the patched BigQuery constructor prints and passes on *)

Lemma filter_print_registry_log env :
  List.filter is_print (trace (get_integrations env tt)) = [].
Proof.
  rewrite get_integrations_outcome.
  destruct (env !! integrations_var) as [raw|]; cbn [trace]; [|done].
  induction (split ":" raw) as [|p ps IH]; [done|].
  cbn [flat_map]. rewrite List.filter_app, IH, app_nil_r. unfold piece_log.
  by destruct (names_known_target p).
Qed.

(** The lines a call of the patched BigQuery constructor prints, with the
    vendor constructor printing nothing: on the public route the public
    message alone; otherwise the "select a BigQuery account" line when the
    caller gave no credentials and the integration is off, followed by the
    "specify a project id" line when no project was resolved. *)
Theorem monkeypatch_bq_printed (S : Type) (env : gmap string string)
    (args : list pyval) (kwargs : gmap string pyval) (s : S) :
  List.filter is_print (trace (monkeypatch_bq (Client_init cls_Client) args kwargs env s))
  = if routes_public env kwargs then [EvPrint public_msg]
    else ((if is_None (kwargs_get kwargs "credentials")
              && negb (has_bigquery (registry_of env))
           then [EvPrint select_bigquery_account_msg] else [])
          ++ (if is_None (explicit_project_id_of kwargs (env !! project_var))
              then [EvPrint specify_project_msg] else []))%list.
Proof.
  rewrite monkeypatch_bq_outcome. cbv zeta.
  cbn [prepend trace]. rewrite List.filter_app, filter_print_registry_log. cbn [app].
  destruct (truthy (explicit_project_id_of kwargs (env !! project_var))) eqn:Ht.
  - assert (routes_public env kwargs = false) as ->.
    { unfold routes_public. by rewrite (truthy_not_None _ Ht). }
    rewrite (truthy_not_None _ Ht).
    unfold unmodified_client, prepend, Client_init, ret. cbn [trace].
    rewrite kwargs_get_insert_ne by done.
    destruct (is_None (kwargs_get kwargs "credentials")),
      (has_bigquery (registry_of env)); reflexivity.
  - destruct (routes_public env kwargs) eqn:Hpub.
    + by rewrite PublicBigqueryClient_outcome.
    + unfold unmodified_client, prepend, Client_init, ret. cbn [trace].
      destruct (is_None (kwargs_get kwargs "credentials")),
        (has_bigquery (registry_of env)),
        (is_None (explicit_project_id_of kwargs (env !! project_var))); reflexivity.
Qed.

(** A project that resolves to something truthy, from the caller's keyword
    first and from GOOGLE_CLOUD_PROJECT otherwise, is what the wrapped
    constructor receives as project keyword; the public route is not taken,
    the resolution is logged, and every keyword other than project and
    credentials is passed on as given. *)
Theorem monkeypatch_bq_project_resolution (S : Type)
    (bq_client : list pyval -> gmap string pyval -> M S Client)
    (env : gmap string string) (args : list pyval) (kwargs : gmap string pyval) (s : S) :
  truthy (explicit_project_id_of kwargs (env !! project_var)) = true ->
  exists pre kwargs',
    monkeypatch_bq bq_client args kwargs env s = prepend pre (bq_client args kwargs' env s)
    /\ kwargs' !! "project"
       = Some (if truthy (kwargs_get kwargs "project") then kwargs_get kwargs "project"
               else of_option (env !! project_var))
    /\ (forall k, k <> "project" -> k <> "credentials" -> kwargs' !! k = kwargs !! k)
    /\ constructs cls_PublicBigqueryClient pre = false
    /\ In (EvLogInfo ("Explicit project set to "
                      +:+ py_str (explicit_project_id_of kwargs (env !! project_var)))) pre.
Proof.
  intros Ht. rewrite monkeypatch_bq_outcome. cbv zeta. rewrite Ht.
  unfold unmodified_client. rewrite !prepend_prepend.
  eexists _, _. split; [reflexivity|].
  split.
  { unfold explicit_project_id_of, py_or.
    destruct (is_None (kwargs_get (<["project" := _]> kwargs) "credentials"));
      by rewrite ?(lookup_insert_ne _ "credentials" "project"), lookup_insert_eq. }
  split.
  { intros k H1 H2.
    destruct (is_None (kwargs_get (<["project" := _]> kwargs) "credentials"));
      by rewrite !lookup_insert_ne. }
  split.
  { rewrite !constructs_app, constructs_registry_log.
    destruct (is_None (kwargs_get (<["project" := _]> kwargs) "credentials"));
      by rewrite ?constructs_credentials_diagnostics. }
  apply in_or_app. left. apply in_or_app. right. by left.
Qed.

Lemma monkeypatch_bq_project_resolution_witness :
  truthy (explicit_project_id_of {[ "project" := PyStr "mine" ]}
            (({[ project_var := "theirs" ]} : gmap string string) !! project_var)) = true
  /\ exists pre kwargs',
       monkeypatch_bq (S:=unit) (Client_init cls_Client) []
         {[ "project" := PyStr "mine" ]} {[ project_var := "theirs" ]} tt
       = prepend pre (Client_init cls_Client [] kwargs' {[ project_var := "theirs" ]} tt)
       /\ kwargs' !! "project" = Some (PyStr "mine").
Proof.
  assert (truthy (explicit_project_id_of {[ "project" := PyStr "mine" ]}
                    (({[ project_var := "theirs" ]} : gmap string string) !! project_var))
          = true) as Ht by reflexivity.
  split; [exact Ht|].
  destruct (monkeypatch_bq_project_resolution unit (Client_init cls_Client)
              {[ project_var := "theirs" ]} [] {[ "project" := PyStr "mine" ]} tt Ht)
    as (pre & kwargs' & H1 & H2 & _).
  exists pre, kwargs'. split; [exact H1 | exact H2].
Defined.

Lemma count_new_app cls t1 t2 :
  count_new cls (t1 ++ t2) = count_new cls t1 + count_new cls t2.
Proof. unfold count_new. by rewrite List.filter_app, length_app. Qed.

Lemma count_new_registry_log cls env :
  count_new cls (trace (get_integrations env tt)) = 0.
Proof.
  rewrite get_integrations_outcome.
  destruct (env !! integrations_var) as [raw|]; cbn [trace]; [|done].
  induction (split ":" raw) as [|p ps IH]; [done|].
  cbn [flat_map]. rewrite count_new_app, IH. unfold piece_log.
  by destruct (names_known_target p).
Qed.

(** Off the public route, a call without credentials gets exactly one newly
    constructed [KaggleKernelCredentials], bound to BigQuery and not yet
    refreshed, as the credentials keyword of the wrapped constructor; no
    public client is constructed. *)
Theorem monkeypatch_bq_kernel_credentials (S : Type)
    (bq_client : list pyval -> gmap string pyval -> M S Client)
    (env : gmap string string) (args : list pyval) (kwargs : gmap string pyval) (s : S) :
  is_None (kwargs_get kwargs "credentials") = true ->
  routes_public env kwargs = false ->
  exists pre kwargs',
    monkeypatch_bq bq_client args kwargs env s = prepend pre (bq_client args kwargs' env s)
    /\ kwargs' !! "credentials"
       = Some (PyCredentials (KernelCredentials
                 {| target := BIGQUERY; token := None; expiry := None |}))
    /\ count_new cls_KaggleKernelCredentials pre = 1
    /\ constructs cls_PublicBigqueryClient pre = false.
Proof.
  intros Hc Hp. rewrite monkeypatch_bq_outcome. cbv zeta. rewrite Hp.
  unfold unmodified_client. rewrite kwargs_get_insert_ne by done. rewrite Hc.
  destruct (truthy (explicit_project_id_of kwargs (env !! project_var)));
    rewrite !prepend_prepend; eexists _, _; (split; [reflexivity|]);
    (split; [by rewrite lookup_insert_eq|]);
    rewrite !count_new_app, !constructs_app, count_new_registry_log,
      constructs_registry_log, constructs_credentials_diagnostics;
    destruct (has_bigquery (registry_of env)),
      (is_None (explicit_project_id_of kwargs (env !! project_var))); done.
Qed.

Lemma monkeypatch_bq_kernel_credentials_witness :
  is_None (kwargs_get (∅ : gmap string pyval) "credentials") = true
  /\ routes_public {[ integrations_var := "bigquery" ]} ∅ = false
  /\ exists pre kwargs',
       monkeypatch_bq (S:=unit) (Client_init cls_Client) [] ∅
         {[ integrations_var := "bigquery" ]} tt
       = prepend pre (Client_init cls_Client [] kwargs' {[ integrations_var := "bigquery" ]} tt)
       /\ kwargs' !! "credentials"
          = Some (PyCredentials (KernelCredentials
                    {| target := BIGQUERY; token := None; expiry := None |})).
Proof.
  assert (routes_public {[ integrations_var := "bigquery" ]} ∅ = false) as Hp
    by (vm_compute; reflexivity).
  assert (is_None (kwargs_get (∅ : gmap string pyval) "credentials") = true) as Hc
    by reflexivity.
  split; [exact Hc|]. split; [exact Hp|].
  destruct (monkeypatch_bq_kernel_credentials unit (Client_init cls_Client)
              {[ integrations_var := "bigquery" ]} [] ∅ tt Hc Hp)
    as (pre & kwargs' & H1 & H2 & _).
  exists pre, kwargs'. split; [exact H1 | exact H2].
Defined.

(** An empty GOOGLE_CLOUD_PROJECT is neither a project nor the absence of
    one: with no truthy project keyword the public route is not taken even
    without credentials and without the integration, the wrapped constructor
    gets the project keyword as the caller left it, and the "specify a
    project id" line is not printed. *)
Theorem monkeypatch_bq_empty_default_project (S : Type)
    (env : gmap string string) (args : list pyval) (kwargs : gmap string pyval) (s : S) :
  env !! project_var = Some "" ->
  truthy (kwargs_get kwargs "project") = false ->
  let o := monkeypatch_bq (Client_init cls_Client) args kwargs env s in
  public_route_taken o = false
  /\ (exists c, result o = inr c
                /\ client_class c = cls_Client
                /\ client_kwargs c !! "project" = kwargs !! "project")
  /\ ~ In (EvPrint specify_project_msg) (trace o).
Proof.
  intros He Hf. cbv zeta.
  assert (explicit_project_id_of kwargs (env !! project_var) = PyStr "") as Hpid.
  { unfold explicit_project_id_of, py_or. by rewrite Hf, He. }
  assert (routes_public env kwargs = false) as Hp.
  { unfold routes_public. by rewrite Hpid. }
  split; [|split].
  - rewrite monkeypatch_bq_outcome. cbv zeta. rewrite Hpid, Hp. cbn [truthy String.eqb negb].
    rewrite public_route_taken_prepend, constructs_registry_log. cbn [orb is_None].
    unfold public_route_taken, unmodified_client, prepend, Client_init, ret. cbn [trace].
    rewrite !constructs_app.
    destruct (is_None (kwargs_get kwargs "credentials"));
      by rewrite ?constructs_credentials_diagnostics.
  - rewrite monkeypatch_bq_outcome. cbv zeta. rewrite Hpid, Hp. cbn [truthy String.eqb negb].
    unfold unmodified_client, prepend, Client_init, ret. cbn [result].
    eexists. split; [reflexivity|]. cbn [client_class client_kwargs]. split; [done|].
    destruct (is_None (kwargs_get kwargs "credentials")); [|done].
    by rewrite lookup_insert_ne.
  - intros Hin.
    assert (In (EvPrint specify_project_msg)
               (List.filter is_print
                  (trace (monkeypatch_bq (Client_init cls_Client) args kwargs env s)))) as Hf'.
    { apply List.filter_In. split; [exact Hin | done]. }
    rewrite monkeypatch_bq_printed, Hp, Hpid in Hf'. cbn [is_None] in Hf'.
    rewrite app_nil_r in Hf'.
    destruct (is_None (kwargs_get kwargs "credentials") && negb (has_bigquery (registry_of env)));
      [destruct Hf' as [Hf'|[]]; discriminate | destruct Hf'].
Qed.

Lemma monkeypatch_bq_empty_default_project_witness :
  ({[ project_var := "" ]} : gmap string string) !! project_var = Some ""
  /\ truthy (kwargs_get (∅ : gmap string pyval) "project") = false
  /\ public_route_taken
       (monkeypatch_bq (S:=unit) (Client_init cls_Client) [] ∅ {[ project_var := "" ]} tt)
     = false.
Proof.
  assert (({[ project_var := "" ]} : gmap string string) !! project_var = Some "") as He
    by reflexivity.
  assert (truthy (kwargs_get (∅ : gmap string pyval) "project") = false) as Hf
    by reflexivity.
  split; [exact He|]. split; [exact Hf|].
  exact (proj1 (monkeypatch_bq_empty_default_project unit {[ project_var := "" ]} [] ∅ tt
                  He Hf)).
Defined.

(** ** The patched storage constructor *)

(** A storage client requested without credentials gets one newly
    constructed [KaggleKernelCredentials] bound to GCS, not yet refreshed,
    as its credentials keyword; one line is logged, nothing is printed, and
    the positional arguments and every other keyword go to the wrapped
    [__init__] as given. *)
Theorem monkeypatch_gcs_default_credentials (S : Type)
    (gcs_client_init : list pyval -> gmap string pyval -> M S Client)
    (env : gmap string string) (args : list pyval) (kwargs : gmap string pyval) (s : S) :
  is_None (kwargs_get kwargs "credentials") = true ->
  exists kwargs',
    monkeypatch_gcs gcs_client_init args kwargs env s
    = prepend [EvLogInfo "No credentials specified, using KaggleKernelCredentials.";
               EvNew cls_KaggleKernelCredentials]
        (gcs_client_init args kwargs' env s)
    /\ kwargs' !! "credentials"
       = Some (PyCredentials (KernelCredentials
                 {| target := GCS; token := None; expiry := None |}))
    /\ forall k, k <> "credentials" -> kwargs' !! k = kwargs !! k.
Proof.
  intros Hc. rewrite monkeypatch_gcs_outcome, Hc.
  eexists. split; [reflexivity|]. split; [by rewrite lookup_insert_eq|].
  intros k Hk. by rewrite lookup_insert_ne.
Qed.

Lemma monkeypatch_gcs_default_credentials_witness :
  is_None (kwargs_get ({[ "project" := PyStr "p" ]} : gmap string pyval) "credentials") = true
  /\ exists kwargs',
       monkeypatch_gcs (S:=unit) (Client_init cls_Client) [] {[ "project" := PyStr "p" ]} ∅ tt
       = prepend [EvLogInfo "No credentials specified, using KaggleKernelCredentials.";
                  EvNew cls_KaggleKernelCredentials]
           (Client_init cls_Client [] kwargs' ∅ tt)
       /\ kwargs' !! "credentials"
          = Some (PyCredentials (KernelCredentials
                    {| target := GCS; token := None; expiry := None |})).
Proof.
  assert (is_None (kwargs_get ({[ "project" := PyStr "p" ]} : gmap string pyval)
                     "credentials") = true) as Hc by reflexivity.
  split; [exact Hc|].
  destruct (monkeypatch_gcs_default_credentials unit (Client_init cls_Client) ∅ []
              {[ "project" := PyStr "p" ]} tt Hc) as (kwargs' & H1 & H2 & _).
  exists kwargs'. split; [exact H1 | exact H2].
Defined.

(** ** Initialisation *)

Lemma init_bigquery_trace inst env m :
  trace (init_bigquery inst env m)
  = if tokens_set env then
      (trace (get_integrations env tt)
       ++ (if has_bigquery (registry_of env) then [EvNew cls_KaggleKernelCredentials]
           else []))%list
    else [].
Proof.
  unfold init_bigquery, in_os_environ, tokens_set, KaggleKernelCredentials_new.
  mrun. destruct m as [bq mc st].
  destruct (env !! "KAGGLE_DATA_PROXY_TOKEN"), (env !! "KAGGLE_USER_SECRETS_TOKEN");
    cbn [orb negb]; try done;
    mrun; destruct (has_bigquery (registry_of env)); mrun;
    cbn [bigquery_Client magics_context_credentials storage_Client_init];
    destruct (has_been_monkeypatched inst bq); cbn [prepend trace set_self ret];
    by rewrite ?app_nil_r.
Qed.

Lemma init_gcs_trace inst env m :
  trace (init_gcs inst env m)
  = match env !! "KAGGLE_USER_SECRETS_TOKEN" with
    | Some _ => trace (get_integrations env tt)
    | None => []
    end.
Proof.
  unfold init_gcs, in_os_environ.
  mrun. destruct m as [bq mc st].
  destruct (env !! "KAGGLE_USER_SECRETS_TOKEN"); cbn [negb]; try done.
  mrun. destruct (has_gcs (registry_of env)); cbn [negb prepend trace ret];
    [|by rewrite app_nil_r].
  mrun. cbn [storage_Client_init].
  destruct (has_been_monkeypatched inst st); cbn [trace set_self ret]; by rewrite app_nil_r.
Qed.

(** What [init_bigquery] does to the modules, from any starting point: it
    never touches [storage.Client.__init__]; it preloads the magics
    credentials with a new BigQuery [KaggleKernelCredentials] exactly when a
    token is set and the registry has BigQuery, and leaves them alone
    otherwise; it wraps [bigquery.Client] exactly when a token is set and
    the guard does not find it patched; and it raises nothing. *)
Theorem init_bigquery_effect (inst : installation) (env : gmap string string) (m : modules) :
  let o := init_bigquery inst env m in
  result o = inr tt
  /\ storage_Client_init (state o) = storage_Client_init m
  /\ magics_context_credentials (state o)
     = (if tokens_set env && has_bigquery (registry_of env)
        then Some (KernelCredentials {| target := BIGQUERY; token := None; expiry := None |})
        else magics_context_credentials m)
  /\ bigquery_Client (state o)
     = (if tokens_set env && negb (has_been_monkeypatched inst (bigquery_Client m))
        then PatchedBigqueryClient (bigquery_Client m)
        else bigquery_Client m).
Proof.
  cbv zeta. destruct (init_bigquery_outcome inst env m) as [-> ->].
  split; [done|]. unfold init_bigquery_modules.
  destruct (tokens_set env), (has_bigquery (registry_of env)),
    (has_been_monkeypatched inst (bigquery_Client m)); done.
Qed.

(** What [init_gcs] does to the modules, from any starting point: it never
    touches [bigquery.Client] or the magics credentials; it wraps
    [storage.Client.__init__] exactly when the user-secrets token is set,
    the registry has GCS and the guard does not find it patched; and it
    raises nothing. *)
Theorem init_gcs_effect (inst : installation) (env : gmap string string) (m : modules) :
  let o := init_gcs inst env m in
  result o = inr tt
  /\ bigquery_Client (state o) = bigquery_Client m
  /\ magics_context_credentials (state o) = magics_context_credentials m
  /\ storage_Client_init (state o)
     = (if match env !! "KAGGLE_USER_SECRETS_TOKEN" with Some _ => true | None => false end
           && has_gcs (registry_of env)
           && negb (has_been_monkeypatched inst (storage_Client_init m))
        then PatchedStorageInit (storage_Client_init m)
        else storage_Client_init m).
Proof.
  cbv zeta. destruct (init_gcs_outcome inst env m) as [-> ->].
  split; [done|]. unfold init_gcs_modules.
  destruct (env !! "KAGGLE_USER_SECRETS_TOKEN"), (has_gcs (registry_of env)),
    (has_been_monkeypatched inst (storage_Client_init m)); done.
Qed.

(** [init] from any state of the modules, patched or not: a second run
    leaves what the first run left; one run adds at most one wrapper to each
    constructor; and a constructor that already has a wrapper gets no
    further one. *)
Theorem init_any_state (inst : installation) (env : gmap string string) (m : modules) :
  let m1 := state (init inst env m) in
  state ((init inst ;;; init inst) env m) = m1
  /\ bigquery_layers (bigquery_Client m1) <= S (bigquery_layers (bigquery_Client m))
  /\ storage_layers (storage_Client_init m1) <= S (storage_layers (storage_Client_init m))
  /\ (1 <= bigquery_layers (bigquery_Client m) ->
      bigquery_Client m1 = bigquery_Client m)
  /\ (1 <= storage_layers (storage_Client_init m) ->
      storage_Client_init m1 = storage_Client_init m).
Proof.
  cbv zeta.
  destruct (init_twice_outcome inst env m) as [-> _].
  destruct (init_outcome inst env m) as [-> _].
  split; [apply init_modules_idempotent|].
  unfold init_gcs_modules, init_bigquery_modules.
  destruct m as [bq mc st].
  cbn [bigquery_Client magics_context_credentials storage_Client_init].
  repeat split.
  - destruct (tokens_set env), (env !! "KAGGLE_USER_SECRETS_TOKEN"),
      (has_gcs (registry_of env));
      cbn [bigquery_Client]; try lia;
      destruct (has_been_monkeypatched inst bq); cbn [bigquery_layers]; lia.
  - destruct (tokens_set env), (env !! "KAGGLE_USER_SECRETS_TOKEN"),
      (has_gcs (registry_of env));
      cbn [storage_Client_init]; try lia;
      destruct (has_been_monkeypatched inst st); cbn [storage_layers]; lia.
  - intros Hl. destruct bq as [|bq']; [cbn in Hl; lia|].
    destruct (tokens_set env), (env !! "KAGGLE_USER_SECRETS_TOKEN"),
      (has_gcs (registry_of env));
      cbn [bigquery_Client]; by rewrite ?patched_bigquery_detected.
  - intros Hl. destruct st as [|st']; [cbn in Hl; lia|].
    destruct (tokens_set env), (env !! "KAGGLE_USER_SECRETS_TOKEN"),
      (has_gcs (registry_of env));
      cbn [storage_Client_init]; by rewrite ?patched_storage_detected.
Qed.

(** What [init] says: it prints nothing and constructs no client. When the
    user-secrets token is set it reads the integrations list twice, once for
    each library, so every unknown entry is logged twice; with the proxy
    token alone it reads it once; with no token it reads nothing. It
    constructs one [KaggleKernelCredentials], for the magics, exactly when a
    token is set and the registry has BigQuery. *)
Theorem init_diagnostics (inst : installation) (env : gmap string string) (m : modules) :
  let t := trace (init inst env m) in
  let log := trace (get_integrations env tt) in
  List.filter is_print t = []
  /\ constructs cls_PublicBigqueryClient t = false
  /\ count_new cls_KaggleKernelCredentials t
     = (if tokens_set env && has_bigquery (registry_of env) then 1 else 0)
  /\ List.filter (fun ev => match ev with EvLogError _ => true | _ => false end) t
     = match env !! "KAGGLE_USER_SECRETS_TOKEN", env !! "KAGGLE_DATA_PROXY_TOKEN" with
       | Some _, _ => (log ++ log)%list
       | None, Some _ => log
       | None, None => []
       end.
Proof.
  cbv zeta.
  assert (trace (init inst env m)
          = (trace (init_bigquery inst env m)
             ++ trace (init_gcs inst env (state (init_bigquery inst env m))))%list) as ->.
  { unfold init, bind. destruct (init_bigquery_outcome inst env m) as [_ ->]. done. }
  rewrite init_bigquery_trace, init_gcs_trace.
  assert (forall l, (forall ev, In ev l -> exists msg, ev = EvLogError msg) ->
            List.filter (fun ev => match ev with EvLogError _ => true | _ => false end) l = l)
    as Herr.
  { induction l as [|ev l IH]; intros Hl; [done|].
    destruct (Hl ev (or_introl eq_refl)) as (msg & ->). cbn. f_equal.
    apply IH. intros ev' Hin. apply Hl. by right. }
  assert (forall ev, In ev (trace (get_integrations env tt)) -> exists msg, ev = EvLogError msg)
    as Hlog.
  { rewrite get_integrations_outcome.
    destruct (env !! integrations_var) as [raw|]; cbn [trace]; [|intros ev []].
    intros ev Hin. apply in_flat_map in Hin as (p & _ & Hin).
    unfold piece_log in Hin. destruct (names_known_target p); [destruct Hin|].
    destruct Hin as [<-|[]]. by eexists. }
  pose proof (filter_print_registry_log env) as Hpr.
  pose proof (constructs_registry_log cls_PublicBigqueryClient env) as Hcs.
  pose proof (count_new_registry_log cls_KaggleKernelCredentials env) as Hcn.
  pose proof (Herr _ Hlog) as Hfl.
  unfold tokens_set.
  destruct (env !! "KAGGLE_DATA_PROXY_TOKEN"), (env !! "KAGGLE_USER_SECRETS_TOKEN"),
    (has_bigquery (registry_of env)); cbn [andb];
    rewrite ?List.filter_app, ?constructs_app, ?count_new_app, ?Hpr, ?Hcs, ?Hcn, ?Hfl,
      ?app_nil_r; done.
Qed.

Example init_logs_unknown_entry_twice :
  trace (init example_installation
           {[ "KAGGLE_USER_SECRETS_TOKEN" := "t"; integrations_var := "bigquery:typo" ]}
           pristine)
  = [EvLogError "Unknown integration target: 'TYPO'";
     EvNew cls_KaggleKernelCredentials;
     EvLogError "Unknown integration target: 'TYPO'"].
Proof. vm_compute. done. Qed.

(** ** A whole session *)

Lemma init_pristine_state inst env :
  bigquery_Client (state (init inst env pristine))
  = (if bigquery_gate inst env then PatchedBigqueryClient VendorBigqueryClient
     else VendorBigqueryClient)
  /\ storage_Client_init (state (init inst env pristine))
     = (if gcs_gate inst env then PatchedStorageInit VendorStorageInit
        else VendorStorageInit).
Proof.
  destruct (init_outcome inst env pristine) as [-> _]. apply init_pristine_modules.
Qed.

(** From start-up to the first token, for storage: after [init] in a session
    whose GCS gate is open, a storage client requested without credentials
    is built and carries a [KaggleKernelCredentials]; refreshing that
    credential with a vault whose GCS fetch returns [(tok, exp)] sets its
    token and expiry to that pair, whatever the vault would answer for
    BigQuery or AutoML. *)
Theorem storage_session_first_token (service : GcpTarget -> string)
    (inst : installation) (env : gmap string string)
    (args : list pyval) (kwargs : gmap string pyval)
    (vault : UserSecretsClient) (tok : string) (exp : Z) :
  gcs_gate inst env = true ->
  is_None (kwargs_get kwargs "credentials") = true ->
  UserSecretsClient_new vault = inr tt ->
  _get_gcs_access_token vault = inr (tok, exp) ->
  exists c kc,
    result (call_storage_Client_init (S:=unit)
              (storage_Client_init (state (init inst env pristine))) args kwargs env tt)
    = inr c
    /\ client_kwargs c !! "credentials" = Some (PyCredentials (KernelCredentials kc))
    /\ refresh service vault PyNone env kc
       = Outcome [] {| target := GCS; token := Some tok; expiry := Some exp |} (inr tt).
Proof.
  intros Hg Hc Hn Hv.
  destruct (init_pristine_state inst env) as [_ ->]. rewrite Hg.
  cbn [call_storage_Client_init]. rewrite monkeypatch_gcs_outcome, Hc.
  eexists _, _. split; [reflexivity|].
  cbn [client_kwargs]. split; [by rewrite lookup_insert_eq|].
  rewrite refresh_outcome. unfold vault_call. cbn [target]. by rewrite Hn, Hv.
Qed.

Lemma storage_session_first_token_witness :
  gcs_gate example_installation
    {[ "KAGGLE_USER_SECRETS_TOKEN" := "t"; integrations_var := "gcs" ]} = true
  /\ is_None (kwargs_get (∅ : gmap string pyval) "credentials") = true
  /\ exists c kc,
       result (call_storage_Client_init (S:=unit)
                 (storage_Client_init
                    (state (init example_installation
                              {[ "KAGGLE_USER_SECRETS_TOKEN" := "t"; integrations_var := "gcs" ]}
                              pristine)))
                 [] ∅ {[ "KAGGLE_USER_SECRETS_TOKEN" := "t"; integrations_var := "gcs" ]} tt)
       = inr c
       /\ client_kwargs c !! "credentials" = Some (PyCredentials (KernelCredentials kc))
       /\ refresh example_service (vault_returning "ya29.g" 30) PyNone
            {[ "KAGGLE_USER_SECRETS_TOKEN" := "t"; integrations_var := "gcs" ]} kc
          = Outcome [] {| target := GCS; token := Some "ya29.g"; expiry := Some 30%Z |}
                    (inr tt).
Proof.
  assert (gcs_gate example_installation
            {[ "KAGGLE_USER_SECRETS_TOKEN" := "t"; integrations_var := "gcs" ]} = true) as Hg
    by (vm_compute; reflexivity).
  assert (is_None (kwargs_get (∅ : gmap string pyval) "credentials") = true) as Hc
    by reflexivity.
  split; [exact Hg|]. split; [exact Hc|].
  exact (storage_session_first_token example_service example_installation
           {[ "KAGGLE_USER_SECRETS_TOKEN" := "t"; integrations_var := "gcs" ]} [] ∅
           (vault_returning "ya29.g" 30) "ya29.g" 30%Z Hg Hc eq_refl eq_refl).
Defined.

(** From start-up to the first token, for BigQuery with the integration on:
    after [init] in a session whose BigQuery gate is open and whose registry
    has BigQuery, a client requested without credentials is never the public
    one, whatever the project; it is built by the vendor constructor and
    carries a [KaggleKernelCredentials]; refreshing that credential with a
    vault whose BigQuery fetch returns [(tok, exp)] sets its token and
    expiry to that pair. *)
Theorem bigquery_session_first_token (service : GcpTarget -> string)
    (inst : installation) (env : gmap string string)
    (args : list pyval) (kwargs : gmap string pyval)
    (vault : UserSecretsClient) (tok : string) (exp : Z) :
  bigquery_gate inst env = true ->
  has_bigquery (registry_of env) = true ->
  is_None (kwargs_get kwargs "credentials") = true ->
  UserSecretsClient_new vault = inr tt ->
  get_bigquery_access_token vault = inr (tok, exp) ->
  exists c kc,
    result (call_bigquery_Client (S:=unit)
              (bigquery_Client (state (init inst env pristine))) args kwargs env tt)
    = inr c
    /\ client_class c = cls_Client
    /\ client_kwargs c !! "credentials" = Some (PyCredentials (KernelCredentials kc))
    /\ refresh service vault PyNone env kc
       = Outcome [] {| target := BIGQUERY; token := Some tok; expiry := Some exp |} (inr tt).
Proof.
  intros Hg Hb Hc Hn Hv.
  destruct (init_pristine_state inst env) as [-> _]. rewrite Hg.
  cbn [call_bigquery_Client]. rewrite monkeypatch_bq_outcome. cbv zeta.
  assert (routes_public env kwargs = false) as ->.
  { unfold routes_public. rewrite Hb. by rewrite andb_false_r. }
  unfold unmodified_client. rewrite kwargs_get_insert_ne by done. rewrite Hc.
  assert (forall kc, kc = {| target := BIGQUERY; token := None; expiry := None |} ->
            refresh service vault PyNone env kc
            = Outcome [] {| target := BIGQUERY; token := Some tok; expiry := Some exp |}
                      (inr tt)) as Hr.
  { intros kc ->. rewrite refresh_outcome. unfold vault_call. cbn [target].
    by rewrite Hn, Hv. }
  destruct (truthy (explicit_project_id_of kwargs (env !! project_var)));
    eexists _, _; (split; [reflexivity|]); cbn [client_class client_kwargs];
    (split; [done|]); (split; [by rewrite lookup_insert_eq|]); by apply Hr.
Qed.

Lemma bigquery_session_first_token_witness :
  bigquery_gate example_installation
    {[ "KAGGLE_USER_SECRETS_TOKEN" := "t"; integrations_var := "bigquery" ]} = true
  /\ has_bigquery (registry_of
       {[ "KAGGLE_USER_SECRETS_TOKEN" := "t"; integrations_var := "bigquery" ]}) = true
  /\ exists c kc,
       result (call_bigquery_Client (S:=unit)
                 (bigquery_Client
                    (state (init example_installation
                              {[ "KAGGLE_USER_SECRETS_TOKEN" := "t";
                                 integrations_var := "bigquery" ]} pristine)))
                 [] {[ "project" := PyStr "p" ]}
                 {[ "KAGGLE_USER_SECRETS_TOKEN" := "t"; integrations_var := "bigquery" ]} tt)
       = inr c
       /\ client_class c = cls_Client
       /\ client_kwargs c !! "credentials" = Some (PyCredentials (KernelCredentials kc))
       /\ refresh example_service (vault_returning "ya29.b" 40) PyNone
            {[ "KAGGLE_USER_SECRETS_TOKEN" := "t"; integrations_var := "bigquery" ]} kc
          = Outcome [] {| target := BIGQUERY; token := Some "ya29.b"; expiry := Some 40%Z |}
                    (inr tt).
Proof.
  assert (bigquery_gate example_installation
            {[ "KAGGLE_USER_SECRETS_TOKEN" := "t"; integrations_var := "bigquery" ]} = true)
    as Hg by (vm_compute; reflexivity).
  assert (has_bigquery (registry_of
            {[ "KAGGLE_USER_SECRETS_TOKEN" := "t"; integrations_var := "bigquery" ]}) = true)
    as Hb by (vm_compute; reflexivity).
  assert (is_None (kwargs_get ({[ "project" := PyStr "p" ]} : gmap string pyval)
                     "credentials") = true) as Hc by reflexivity.
  split; [exact Hg|]. split; [exact Hb|].
  exact (bigquery_session_first_token example_service example_installation
           {[ "KAGGLE_USER_SECRETS_TOKEN" := "t"; integrations_var := "bigquery" ]} []
           {[ "project" := PyStr "p" ]}
           (vault_returning "ya29.b" 40) "ya29.b" 40%Z Hg Hb Hc eq_refl eq_refl).
Defined.

(** ** The integrations list cut into entries *)









Example get_integrations_quoted_entry :
  trace (get_integrations (S:=unit) {[ integrations_var := "a'b:gcs:c\d" ]} tt)
  = [EvLogError (String.append "Unknown integration target: "
                   (String double_quote ("A'B" +:+ String double_quote EmptyString)));
     EvLogError "Unknown integration target: 'C\\D'"].
Proof. vm_compute. done. Qed.

(** ** Credentials passed positionally, and the empty project *)

(** C6 fails as stated: credentials passed as the second positional
    argument are explicit credentials of the call, yet both patched
    constructors construct a [KaggleKernelCredentials] and hand it to the
    wrapped constructor as credentials keyword, next to the caller's. *)
Lemma positional_credentials_counterexample :
  In (PyCredentials (CallerCredentials 7))
     [PyStr "my-project"; PyCredentials (CallerCredentials 7)]
  /\ constructs cls_KaggleKernelCredentials
       (trace (monkeypatch_bq (S:=unit) (Client_init cls_Client)
                 [PyStr "my-project"; PyCredentials (CallerCredentials 7)] ∅
                 {[ integrations_var := "bigquery:gcs" ]} tt)) = true
  /\ result (monkeypatch_gcs (S:=unit) (Client_init cls_Client)
               [PyStr "my-project"; PyCredentials (CallerCredentials 7)] ∅
               {[ integrations_var := "bigquery:gcs" ]} tt)
     = inr {| client_class := cls_Client;
              client_args := [PyStr "my-project"; PyCredentials (CallerCredentials 7)];
              client_kwargs := {[ "credentials" := fresh_credentials GCS ]};
              _connection := VendorConnection |}
  /\ constructs cls_KaggleKernelCredentials
       (trace (monkeypatch_gcs (S:=unit) (Client_init cls_Client)
                 [PyStr "my-project"; PyCredentials (CallerCredentials 7)] ∅
                 {[ integrations_var := "bigquery:gcs" ]} tt)) = true.
Proof. split; [right; by left|]. vm_compute. done. Qed.

(** C10, the failing call. [bigquery.Client(project='')] in a session with
    the proxy token only, no default project and no integration: the empty
    project resolves to no project and the public route is entered, as for
    the call without the keyword; but where that call returns the public
    client, this one raises [TypeError], since [PublicBigqueryClient] hands
    the vendor constructor its own [project] next to the caller's empty
    one. *)
Lemma empty_project_keyword_raises :
  explicit_project_id_of {[ "project" := PyStr "" ]}
    (({[ "KAGGLE_DATA_PROXY_TOKEN" := "t" ]} : gmap string string) !! project_var) = PyNone
  /\ trace (monkeypatch_bq (S:=unit) (Client_init cls_Client) []
              {[ "project" := PyStr "" ]} {[ "KAGGLE_DATA_PROXY_TOKEN" := "t" ]} tt)
     = [EvLogInfo public_msg; EvPrint public_msg; EvNew cls_PublicBigqueryClient]
  /\ result (monkeypatch_bq (S:=unit) (Client_init cls_Client) []
               {[ "project" := PyStr "" ]} {[ "KAGGLE_DATA_PROXY_TOKEN" := "t" ]} tt)
     = inl (TypeError "got multiple values for keyword argument")
  /\ result (monkeypatch_bq (S:=unit) (Client_init cls_Client) [] ∅
               {[ "KAGGLE_DATA_PROXY_TOKEN" := "t" ]} tt)
     = inr (public_client {[ "KAGGLE_DATA_PROXY_TOKEN" := "t" ]} [] ∅).
Proof. vm_compute. done. Qed.

(** Under the conditions of C10 the construction fails for every wrapped
    constructor: a call whose project keyword is the empty string, with no
    default project, no credentials and no BigQuery integration, raises
    [TypeError]. *)
Lemma empty_project_always_raises {S}
    (bq_client : list pyval -> gmap string pyval -> M S Client)
    env args kwargs (s : S) :
  kwargs !! "project" = Some (PyStr "") ->
  env !! project_var = None ->
  is_None (kwargs_get kwargs "credentials") = true ->
  has_bigquery (registry_of env) = false ->
  result (monkeypatch_bq bq_client args kwargs env s)
  = inl (TypeError "got multiple values for keyword argument").
Proof.
  intros Hp He Hc Hb. rewrite monkeypatch_bq_outcome. cbv zeta.
  assert (explicit_project_id_of kwargs (env !! project_var) = PyNone) as Hpid.
  { unfold explicit_project_id_of, kwargs_get. by rewrite Hp, He. }
  rewrite Hpid. cbn [truthy].
  assert (routes_public env kwargs = true) as ->.
  { unfold routes_public. by rewrite Hpid, Hc, Hb. }
  rewrite PublicBigqueryClient_outcome. cbn [prepend result]. by rewrite Hp.
Qed.
